(** * ArcSync: change detection, state persistence and batch upload

    A shallow embedding of the synchronisation pipeline of [arcsync]:

    - [arcsync/pipeline/pipeline_manager.py]: [SyncManager] with
      [_load_state], [_save_state] and [run];
    - [arcsync/sink/arcgis_online.py]: [ArcGisOnlineSink.upsert];
    - [arcsync/pipeline/spatial_etl.py]: [build_featureset] and
      [append_batches];
    - the module [arcsync.sync.cdc], which [pipeline_manager.py] imports
      [record_hash] and [diff_by_hash] from.

    Python dictionaries keep insertion order and have unique keys; they are
    association lists here, with assignment that overwrites in place. *)

From Stdlib Require Import String Ascii List ZArith NArith Lia Bool.
From Stdlib Require Import Permutation Sorted DecimalString.
Import ListNotations.
Open Scope string_scope.
Open Scope list_scope.

(* ===================================================================== *)
(** ** Python values *)
(* ===================================================================== *)

(** The scalars a source row holds. *)
Inductive Value : Type :=
| VNone
| VBool (b : bool)
| VInt (z : Z)
| VStr (s : string).

(** [%d] of a length, and [str] of an integer. *)
Definition fmt_d (n : nat) : string := NilZero.string_of_uint (Nat.to_uint n).

Definition str_int (z : Z) : string := NilZero.string_of_int (Z.to_int z).

(** Python's [str(v)]. *)
Definition py_str (v : Value) : string :=
  match v with
  | VNone => "None"
  | VBool true => "True"
  | VBool false => "False"
  | VInt z => str_int z
  | VStr s => s
  end.

(* ===================================================================== *)
(** ** Dictionaries *)
(* ===================================================================== *)

Module PyDict.

Section Dict.
Context {V : Type}.

Definition t : Type := list (string * V).

Definition empty : t := [].

(** [d.get(k)] *)
Fixpoint get (d : t) (k : string) : option V :=
  match d with
  | [] => None
  | (k', v) :: d' => if String.eqb k' k then Some v else get d' k
  end.

(** [k in d] *)
Definition contains (d : t) (k : string) : bool :=
  match get d k with Some _ => true | None => false end.

(** [d[k] = v]: an existing key keeps its position and takes the new value;
    a new key goes last. *)
Fixpoint set (d : t) (k : string) (v : V) : t :=
  match d with
  | [] => [(k, v)]
  | (k', v') :: d' =>
      if String.eqb k' k then (k', v) :: d' else (k', v') :: set d' k v
  end.

Definition keys (d : t) : list string := map fst d.

Definition values (d : t) : list V := map snd d.

Definition items (d : t) : list (string * V) := d.

(** The invariant of a dictionary: no key twice. *)
Definition wf (d : t) : Prop := NoDup (keys d).

End Dict.

Arguments t : clear implicits.

(** [{k: f(v) for k, v in d.items()}] *)
Definition comprehension {V W : Type} (f : V -> W) (d : t V) : t W :=
  fold_left (fun acc kv => set acc (fst kv) (f (snd kv))) (items d) empty.

(** The same keys in the same order, each value through [f]. *)
Definition pointwise {V W : Type} (f : V -> W) (d : t V) : t W :=
  map (fun kv => (fst kv, f (snd kv))) d.

End PyDict.

(** A row of the source: field name to scalar. *)
Definition Record_ : Type := PyDict.t Value.

(** The current dataset: key (as a string) to row. *)
Definition Dataset : Type := PyDict.t Record_.

(** The persisted state: key to fingerprint. *)
Definition State : Type := PyDict.t string.

(* ===================================================================== *)
(** ** [arcsync.sync.cdc] *)
(* ===================================================================== *)

(** What the fingerprint leaves open: the digest (a hash of [hashlib]), the
    separator between rendered fields, and the key field that
    [record_hash(v)] assumes when it is called with the row alone, as
    [SyncManager.run] calls it. *)
Class CdcParams : Type := {
  digest : string -> string;
  separator : string;
  default_key_col : string
}.

Section Cdc.
Context {P : CdcParams}.

(** The rendering of one field, [field=value]. *)
Definition canonical_field (fv : string * Value) : string :=
  fst fv ++ "=" ++ py_str (snd fv).

(** Insertion of a field into a list sorted by field name. *)
Fixpoint insert_field (fv : string * Value) (l : list (string * Value))
  : list (string * Value) :=
  match l with
  | [] => [fv]
  | fv' :: l' =>
      if String.leb (fst fv) (fst fv') then fv :: l
      else fv' :: insert_field fv l'
  end.

(** The fields sorted by name. *)
Definition sorted_fields (fields : list (string * Value))
  : list (string * Value) :=
  fold_right insert_field [] fields.

Definition non_key_fields (rec : Record_) (key_col : string)
  : list (string * Value) :=
  filter (fun fv => negb (String.eqb (fst fv) key_col)) (PyDict.items rec).

(** Modelled from the spec: [record_hash] of [arcsync.sync.cdc], which is
    not among the sources. Section 4.1: a digest over the record's non-key
    fields, the fields sorted by name, each rendered as [field=value] and
    joined by a fixed separator. *)
Definition record_hash (rec : Record_) (key_col : string) : string :=
  digest (String.concat separator
            (map canonical_field (sorted_fields (non_key_fields rec key_col)))).

(** [record_hash(rec)], the call with the row alone. *)
Definition record_hash1 (rec : Record_) : string :=
  record_hash rec default_key_col.

(** One turn of the loop over [current.items()]. *)
Definition diff_step (prev : State)
  (acc : list Record_ * list Record_) (kr : string * Record_)
  : list Record_ * list Record_ :=
  match PyDict.get prev (fst kr) with
  | None => (fst acc ++ [snd kr], snd acc)
  | Some h =>
      if String.eqb h (record_hash1 (snd kr)) then acc
      else (fst acc, snd acc ++ [snd kr])
  end.

(** Modelled from the spec: [diff_by_hash] of [arcsync.sync.cdc], which is
    not among the sources. Section 4.2: [to_insert] takes the records whose
    key is absent from the previous state, [to_update] those whose key is
    present with a fingerprint that differs from the freshly computed one;
    both in the order of the current dataset. *)
Definition diff_by_hash (current : Dataset) (prev : State)
  : list Record_ * list Record_ :=
  fold_left (diff_step prev) (PyDict.items current) ([], []).

(** The three ways the diff sees an item [(key, record)] of the current
    dataset: its key is absent from the previous state, its key is present
    with another fingerprint, its key is present with the same one. *)
Definition key_absent (prev : State) (kr : string * Record_) : bool :=
  negb (PyDict.contains prev (fst kr)).

Definition fingerprint_differs (prev : State) (kr : string * Record_) : bool :=
  match PyDict.get prev (fst kr) with
  | Some h => negb (String.eqb h (record_hash1 (snd kr)))
  | None => false
  end.

Definition fingerprint_matches (prev : State) (kr : string * Record_) : bool :=
  match PyDict.get prev (fst kr) with
  | Some h => String.eqb h (record_hash1 (snd kr))
  | None => false
  end.

(** Field names in non-decreasing order. *)
Definition name_le (a b : string * Value) : Prop :=
  String.leb (fst a) (fst b) = true.

End Cdc.

(* ===================================================================== *)
(** ** Effects: exceptions, the log, the state file, the feature layer *)
(* ===================================================================== *)

(** An exception: its class and the argument it was raised with. *)
Record Exn : Type := { exc_class : string; exc_arg : string }.

(** Python's [repr] of a string. *)
Class StrRepr : Type := { repr_str : string -> string }.

(** [str(e)], which is what an f-string shows of an exception: the
    argument it was raised with, except that a [KeyError] shows the [repr]
    of its key. *)
Definition exc_str {SR : StrRepr} (e : Exn) : string :=
  if String.eqb (exc_class e) "KeyError" then repr_str (exc_arg e)
  else exc_arg e.

Definition KeyError (msg : string) : Exn :=
  {| exc_class := "KeyError"; exc_arg := msg |}.
Definition ValueError (msg : string) : Exn :=
  {| exc_class := "ValueError"; exc_arg := msg |}.
Definition RuntimeError (msg : string) : Exn :=
  {| exc_class := "RuntimeError"; exc_arg := msg |}.
Definition FileNotFoundError (msg : string) : Exn :=
  {| exc_class := "FileNotFoundError"; exc_arg := msg |}.
Definition JSONDecodeError (msg : string) : Exn :=
  {| exc_class := "JSONDecodeError"; exc_arg := msg |}.

Inductive Level : Type := INFO | WARNING.

Record LogEntry : Type := { level : Level; message : string }.

(** What the state file holds: the JSON object that [json.dumps] wrote for
    a state, or text that [json.loads] rejects. Content that parses is
    taken to be an object from strings to strings, the [Dict[str, str]]
    that [_load_state] declares. *)
Inductive FileContent : Type :=
| JsonObject (s : State)
| Unparsable (raw : string).

(** The features of the hosted layer. *)
Definition Remote : Type := list Record_.

(** Everything a run can touch: the state file of the project ([None]: it
    does not exist), the log, the hosted layer, and the calls made to the
    sink so far, each with its two arguments. *)
Record World : Type := {
  state_file : option FileContent;
  logged : list LogEntry;
  remote : Remote;
  sink_calls : list (list Record_ * list Record_)
}.

Inductive Result (A : Type) : Type :=
| Ok (a : A)
| Raise (e : Exn).
Arguments Ok {A} a.
Arguments Raise {A} e.

(** Computations over a state [S] that return or raise; what was done
    before a raise stays done. *)
Definition St (S A : Type) : Type := S -> Result A * S.

Definition ret {S A : Type} (a : A) : St S A := fun w => (Ok a, w).

Definition raise {S A : Type} (e : Exn) : St S A := fun w => (Raise e, w).

Definition bind {S A B : Type} (m : St S A) (k : A -> St S B) : St S B :=
  fun w =>
    match m w with
    | (Ok a, w') => k a w'
    | (Raise e, w') => (Raise e, w')
    end.

(** [try: body except Exception as e: handler] *)
Definition try_except {S A : Type} (body : St S A) (handler : Exn -> St S A)
  : St S A :=
  fun w =>
    match body w with
    | (Ok a, w') => (Ok a, w')
    | (Raise e, w') => handler e w'
    end.

Definition lift {S A : Type} (r : Result A) : St S A := fun w => (r, w).

(** The computations of a run. *)
Definition M (A : Type) : Type := St World A.

Declare Scope py_scope.
Delimit Scope py_scope with py.
Notation "x <- m ;; k" := (bind m (fun x => k))
  (at level 61, m at next level, right associativity) : py_scope.
Notation "m ;; k" := (bind m (fun _ => k))
  (at level 61, right associativity) : py_scope.
Open Scope py_scope.

Definition log_ (lv : Level) (msg : string) : M unit :=
  fun w =>
    (Ok tt, {| state_file := state_file w;
               logged := logged w ++ [{| level := lv; message := msg |}];
               remote := remote w;
               sink_calls := sink_calls w |}).

(** [self.state_file.exists()] *)
Definition state_file_exists : M bool :=
  fun w => (Ok (match state_file w with Some _ => true | None => false end), w).

(** [json.loads(self.state_file.read_text(encoding="utf-8"))] *)
Definition read_state_json : M State :=
  fun w =>
    match state_file w with
    | Some (JsonObject s) => (Ok s, w)
    | Some (Unparsable raw) => (Raise (JSONDecodeError raw), w)
    | None => (Raise (FileNotFoundError "state file"), w)
    end.

(** [self.state_file.write_text(json.dumps(hashes, indent=2), ...)] *)
Definition write_state_json (hashes : State) : M unit :=
  fun w =>
    (Ok tt, {| state_file := Some (JsonObject hashes);
               logged := logged w;
               remote := remote w;
               sink_calls := sink_calls w |}).

(* ===================================================================== *)
(** ** [arcsync/sink/arcgis_online.py] *)
(* ===================================================================== *)

(** What one [upsert] leaves behind: the layer after it, what it logged,
    and the exception it raised, if any. *)
Record SinkOutcome : Type := {
  so_remote : Remote;
  so_logged : list LogEntry;
  so_raised : option Exn
}.

(** A sink is anything with an [upsert(to_insert, to_update)] acting on the
    hosted layer. *)
Record Sink : Type := {
  upsert : list Record_ -> list Record_ -> Remote -> SinkOutcome
}.

(** [ArcGisOnlineSink.upsert]: the dry run logs the two counts and returns;
    otherwise the placeholder logs that it is a stub. *)
Definition ArcGisOnlineSink (dry_run : bool) : Sink :=
  {| upsert := fun to_insert to_update r =>
       if dry_run then
         {| so_remote := r;
            so_logged :=
              [{| level := INFO;
                  message := "[DRY-RUN] Would insert "
                             ++ fmt_d (length to_insert)
                             ++ " features; update "
                             ++ fmt_d (length to_update) ++ " features" |}];
            so_raised := None |}
       else
         {| so_remote := r;
            so_logged :=
              [{| level := WARNING;
                  message :=
                    "ArcGisOnlineSink is a stub. Implement REST calls here." |}];
            so_raised := None |} |}.

(** The call [sink.upsert(to_insert, to_update)] as [run] makes it. *)
Definition call_upsert (sink : Sink) (to_insert to_update : list Record_)
  : M unit :=
  fun w =>
    let o := upsert sink to_insert to_update (remote w) in
    let w' := {| state_file := state_file w;
                 logged := logged w ++ so_logged o;
                 remote := so_remote o;
                 sink_calls := sink_calls w ++ [(to_insert, to_update)] |} in
    match so_raised o with
    | Some e => (Raise e, w')
    | None => (Ok tt, w')
    end.

(* ===================================================================== *)
(** ** [arcsync/pipeline/pipeline_manager.py] *)
(* ===================================================================== *)

(** Python's [repr] of a dictionary, as the f-string of the [KeyError]
    renders the row. *)
Class Builtins : Type := { repr_dict : Record_ -> string }.

(** The fields of [SyncManager] that [run] reads. *)
Record SyncManager : Type := {
  project : string;
  key_col : string;
  dry_run : bool
}.

Section Pipeline.
Context {P : CdcParams} {B : Builtins}.

Definition _load_state : M State :=
  there <- state_file_exists ;;
  if negb there then ret PyDict.empty
  else
    try_except read_state_json
      (fun _ => log_ WARNING "State file corrupt; starting fresh." ;;
                ret PyDict.empty).

Definition _save_state (hashes : State) : M unit := write_state_json hashes.

(** The loop of [run] over [src.read()] that fills [current_map]. *)
Fixpoint read_records (key_col : string) (recs : list Record_)
  (current_map : Dataset) : Result Dataset :=
  match recs with
  | [] => Ok current_map
  | rec :: rest =>
      match PyDict.get rec key_col with
      | None =>
          Raise (KeyError ("Missing key_column '" ++ key_col
                           ++ "' in record: " ++ repr_dict rec))
      | Some v =>
          read_records key_col rest (PyDict.set current_map (py_str v) rec)
      end
  end.

(** [SyncManager.run], with the records that [src.read()] yields and the
    sink that [self._sink()] returns as arguments: the configuration is
    taken to hold what [_source] and [_sink] look up, and the source to
    read through. *)
Definition run_with (self : SyncManager) (src : list Record_) (sink : Sink)
  : M unit :=
  current_map <- lift (read_records (key_col self) src PyDict.empty) ;;
  prev_hash <- _load_state ;;
  let to_insert := fst (diff_by_hash current_map prev_hash) in
  let to_update := snd (diff_by_hash current_map prev_hash) in
  log_ INFO ("Detected " ++ fmt_d (length to_insert) ++ " inserts, "
             ++ fmt_d (length to_update) ++ " updates") ;;
  call_upsert sink to_insert to_update ;;
  let new_hashes := PyDict.comprehension record_hash1 current_map in
  _save_state new_hashes ;;
  log_ INFO "Sync completed.".

(** [SyncManager.run]: [_sink] builds the [ArcGisOnlineSink] with the
    manager's [dry_run]. *)
Definition run (self : SyncManager) (src : list Record_) : M unit :=
  run_with self src (ArcGisOnlineSink (dry_run self)).

End Pipeline.

(* ===================================================================== *)
(** ** [arcsync/pipeline/spatial_etl.py] *)
(* ===================================================================== *)

Module SpatialEtl.

(** One entry of [addResults]: [r.get("success")] and [r.get("error")]. *)
Record AddResult (Err : Type) : Type := {
  success : bool;
  error : option Err
}.
Arguments success {Err} _.
Arguments error {Err} _.

(** What [layer.edit_features] returns; [addResults] may be missing. *)
Record EditResult (Err : Type) : Type := {
  addResults : option (list (AddResult Err))
}.
Arguments addResults {Err} _.

(** The hosted layer and the feature sets it was sent, in order. *)
Record Platform (L FeatureSet : Type) : Type := {
  layer : L;
  calls : list FeatureSet
}.
Arguments layer {L FeatureSet} _.
Arguments calls {L FeatureSet} _.

Section Etl.
Context {SR : StrRepr}.
(** Rows of the data frame, feature sets, error payloads and layer states
    belong to pandas and to the platform's SDK. *)
Variables Row FeatureSet Err L : Type.
(** [sdf_batch[cols].spatial.to_featureset()] *)
Variable to_featureset : list Row -> list string -> Result FeatureSet.
(** [layer.edit_features(adds=fs)] *)
Variable edit_features : L -> FeatureSet -> Result (EditResult Err) * L.
(** The rendering of [errors[0]] in the f-string. *)
Variable err_str : option Err -> string.

(** [range(0, n, step)] for a length [n]: the starts below [n] for a
    positive step, none for a negative one, a [ValueError] for zero. *)
Fixpoint range_from (fuel start stop step : nat) : list nat :=
  match fuel with
  | O => []
  | S fuel' =>
      if Nat.ltb start stop then start :: range_from fuel' (start + step) stop step
      else []
  end.

Definition py_range0 (n : nat) (step : Z) : Result (list nat) :=
  if (step =? 0)%Z then Raise (ValueError "range() arg 3 must not be zero")
  else if (step <? 0)%Z then Ok []
  else Ok (range_from n 0 n (Z.to_nat step)).

(** [sdf.iloc[start:stop]] *)
Definition iloc (sdf : list Row) (start stop : nat) : list Row :=
  firstn (stop - start) (skipn start sdf).

Definition build_featureset (sdf_batch : list Row) (keep_cols : list string)
  : Result FeatureSet :=
  match to_featureset sdf_batch (keep_cols ++ ["SHAPE"]) with
  | Ok fs => Ok fs
  | Raise e =>
      Raise (RuntimeError ("Failed to build FeatureSet from batch: "
                           ++ exc_str e))
  end.

(** The call to the platform, recorded. *)
Definition call_edit_features (fs : FeatureSet)
  : St (Platform L FeatureSet) (EditResult Err) :=
  fun p =>
    let '(r, l') := edit_features (layer p) fs in
    (r, {| layer := l'; calls := calls p ++ [fs] |}).

(** The loop of [append_batches]; [acc] is [(total_added, errors)]. *)
Fixpoint batch_loop (starts : list nat) (sdf : list Row)
  (keep_cols : list string) (batch_size : Z)
  (acc : nat * list (option Err))
  : St (Platform L FeatureSet) (nat * list (option Err)) :=
  match starts with
  | [] => ret acc
  | start :: rest =>
      let n := length sdf in
      let stop := Nat.min (Z.to_nat (Z.of_nat start + batch_size)) n in
      fs <- lift (build_featureset (iloc sdf start stop) keep_cols) ;;
      result <- call_edit_features fs ;;
      let add_results :=
        match addResults result with Some rs => rs | None => [] end in
      let total_added :=
        (fst acc + length (filter (fun r => success r) add_results))%nat in
      let batch_errors :=
        map (fun r => error r)
            (filter (fun r => negb (success r)) add_results) in
      let errors :=
        match batch_errors with
        | [] => snd acc
        | _ :: _ => snd acc ++ batch_errors
        end in
      batch_loop rest sdf keep_cols batch_size (total_added, errors)
  end.

Definition append_batches (sdf : list Row) (keep_cols : list string)
  (batch_size : Z) : St (Platform L FeatureSet) unit :=
  try_except
    (starts <- lift (py_range0 (length sdf) batch_size) ;;
     acc <- batch_loop starts sdf keep_cols batch_size (O, []) ;;
     match snd acc with
     | [] => ret tt
     | first :: _ =>
         raise (RuntimeError (fmt_d (length (snd acc))
                              ++ " adds failed. First error: "
                              ++ err_str first))
     end)
    (fun e =>
       raise (RuntimeError ("Failed during batch appending: " ++ exc_str e))).

End Etl.

(** The default of [batch_size]. *)
Definition default_batch_size : Z := 1000.

Section Answering.
Variables Row FeatureSet Err L : Type.
Variable to_fs : list Row -> list string -> FeatureSet.
Variable platform : L -> FeatureSet -> EditResult Err * L.

(** An SDK that builds every feature set, and a platform that answers
    every call with a result. *)
Definition built : list Row -> list string -> Result FeatureSet :=
  fun sdf_batch cols => Ok (to_fs sdf_batch cols).

Definition answering : L -> FeatureSet -> Result (EditResult Err) * L :=
  fun l fs => (Ok (fst (platform l fs)), snd (platform l fs)).

(** The answers of the platform to a sequence of calls, and the layer
    after them. *)
Fixpoint replay (l : L) (fss : list FeatureSet)
  : list (EditResult Err) * L :=
  match fss with
  | [] => ([], l)
  | fs :: rest =>
      (fst (platform l fs) :: fst (replay (snd (platform l fs)) rest),
       snd (replay (snd (platform l fs)) rest))
  end.

(** The [error] of every entry of an answer that did not succeed. *)
Definition rejected (res : EditResult Err) : list (option Err) :=
  map (fun r => error r)
      (filter (fun r => negb (success r))
              (match addResults res with Some rs => rs | None => [] end)).

Definition failed_errors (results : list (EditResult Err))
  : list (option Err) :=
  flat_map rejected results.

(** The slices of the data frame that the loop takes, one per start. *)
Definition slices (sdf : list Row) (batch_size : Z) (starts : list nat)
  : list (list Row) :=
  map (fun start =>
         iloc Row sdf start
           (Nat.min (Z.to_nat (Z.of_nat start + batch_size)) (length sdf)))
      starts.

(** The feature sets built from them, as [build_featureset] builds them. *)
Definition feature_sets (sdf : list Row) (keep_cols : list string)
  (batch_size : Z) (starts : list nat) : list FeatureSet :=
  map (fun c => to_fs c (keep_cols ++ ["SHAPE"]))
      (slices sdf batch_size starts).

End Answering.

End SpatialEtl.

(* ===================================================================== *)
(** ** What a run reads off the world *)
(* ===================================================================== *)

(** The state that [_load_state] hands to the diff. *)
Definition loaded_state (w : World) : State :=
  match state_file w with
  | Some (JsonObject s) => s
  | _ => PyDict.empty
  end.

(** What [_load_state] logs. *)
Definition load_warnings (w : World) : list LogEntry :=
  match state_file w with
  | Some (Unparsable _) =>
      [{| level := WARNING; message := "State file corrupt; starting fresh." |}]
  | _ => []
  end.

Definition detected_entry (to_insert to_update : list Record_) : LogEntry :=
  {| level := INFO;
     message := "Detected " ++ fmt_d (length to_insert) ++ " inserts, "
                ++ fmt_d (length to_update) ++ " updates" |}.

Definition completed_entry : LogEntry :=
  {| level := INFO; message := "Sync completed." |}.

(** The message of the [KeyError] for a row without the key column. *)
Definition missing_key_message {B : Builtins} (key_col : string)
  (rec : Record_) : string :=
  "Missing key_column '" ++ key_col ++ "' in record: " ++ repr_dict rec.

(** The key under which [run] files a row: [str(rec[key_col])]. *)
Definition key_of (key_col : string) (rec : Record_) : option string :=
  option_map py_str (PyDict.get rec key_col).

(** Every entry of the dataset is a row of the source, filed under the
    string of its own key. *)
Definition filed_by_key (key_col : string) (src : list Record_) (D : Dataset)
  : Prop :=
  forall k r, In (k, r) (PyDict.items D) ->
              In r src /\ key_of key_col r = Some k.

(* ===================================================================== *)
(** ** [Path.write_text], step by step *)
(* ===================================================================== *)

(** [write_text] opens the file for writing, which empties it, and only
    then writes the text. An empty file is not JSON. *)
Definition truncated (w : World) : World :=
  {| state_file := Some (Unparsable "");
     logged := logged w;
     remote := remote w;
     sink_calls := sink_calls w |}.

(** The worlds that [_save_state] passes through, the last being the one
    it returns in. *)
Definition _save_state_steps (hashes : State) (w : World) : list World :=
  [truncated w; snd (_save_state hashes w)].

(** A replacement is atomic when the file is never in a state other than
    the one before and the one after. *)
Definition atomic_replacement (before after : World) (steps : list World)
  : Prop :=
  forall w', In w' steps ->
             state_file w' = state_file before
             \/ state_file w' = state_file after.

(* ===================================================================== *)
(** ** Keys in the order a run meets them *)
(* ===================================================================== *)

(** The strings under which the rows of a source are filed, row by row. *)
Definition key_strings (key_col : string) (src : list Record_) : list string :=
  flat_map (fun r => match key_of key_col r with
                     | Some k => [k]
                     | None => []
                     end) src.

(** The distinct strings of a list, each where it first occurs. *)
Fixpoint first_occurrences (l : list string) : list string :=
  match l with
  | [] => []
  | x :: l' =>
      x :: filter (fun y => negb (String.eqb x y)) (first_occurrences l')
  end.

(** What the placeholder sink logs outside a dry run. *)
Definition stub_warning : LogEntry :=
  {| level := WARNING;
     message := "ArcGisOnlineSink is a stub. Implement REST calls here." |}.

(* ===================================================================== *)
(** ** [arcsync/config/schema.py] and the constructors of [SyncManager] *)
(* ===================================================================== *)

Module Config.

(** What [yaml.safe_load] hands back: scalars, sequences and mappings with
    string keys. Floats and dates do not occur in the settings read here. *)
#[warnings="-register-all"]
Inductive Yaml : Type :=
| YNull
| YBool (b : bool)
| YInt (z : Z)
| YStr (s : string)
| YList (items : list Yaml)
| YMap (entries : list (string * Yaml)).

Definition TypeError (msg : string) : Exn :=
  {| exc_class := "TypeError"; exc_arg := msg |}.
Definition AttributeError (msg : string) : Exn :=
  {| exc_class := "AttributeError"; exc_arg := msg |}.

(** Sequencing of computations that return or raise, without a state. *)
Definition and_then {A C : Type} (r : Result A) (k : A -> Result C)
  : Result C :=
  match r with
  | Ok a => k a
  | Raise e => Raise e
  end.

(** [s.split(".")] *)
Fixpoint split_dots (s : string) : list string :=
  match s with
  | EmptyString => [EmptyString]
  | String c rest =>
      if Ascii.eqb c "."%char then EmptyString :: split_dots rest
      else match split_dots rest with
           | [] => [String c EmptyString]
           | w :: ws => String c w :: ws
           end
  end.

(** The loop of [_require]: walk down the keys of [path]. *)
Fixpoint require_keys (path : string) (keys : list string) (cur : Yaml)
  : Result unit :=
  match keys with
  | [] => Ok tt
  | key :: rest =>
      match cur with
      | YMap m =>
          match PyDict.get m key with
          | Some v => require_keys path rest v
          | None => Raise (ValueError ("Missing required setting: " ++ path))
          end
      | _ => Raise (ValueError ("Missing required setting: " ++ path))
      end
  end.

Definition _require (cfg : Yaml) (path : string) : Result unit :=
  require_keys path (split_dots path) cfg.

(** [v[key]] *)
Definition index (v : Yaml) (key : string) : Result Yaml :=
  match v with
  | YMap m =>
      match PyDict.get m key with
      | Some x => Ok x
      | None => Raise (KeyError key)
      end
  | YStr _ => Raise (TypeError "string indices must be integers")
  | YList _ => Raise (TypeError "list indices must be integers or slices")
  | _ => Raise (TypeError "object is not subscriptable")
  end.

(** [v in {s1, s2, ...}] for a set of strings: a sequence or a mapping
    cannot be hashed; nothing but an equal string is a member. *)
Definition in_str_set (v : Yaml) (members : list string) : Result bool :=
  match v with
  | YStr s => Ok (existsb (String.eqb s) members)
  | YList _ => Raise (TypeError "unhashable type: 'list'")
  | YMap _ => Raise (TypeError "unhashable type: 'dict'")
  | _ => Ok false
  end.

(** [bool(v)] *)
Definition truthy (v : Yaml) : bool :=
  match v with
  | YNull => false
  | YBool b => b
  | YInt z => negb (z =? 0)%Z
  | YStr s => negb (String.eqb s "")
  | YList l => match l with [] => false | _ => true end
  | YMap m => match m with [] => false | _ => true end
  end.

(** Python's [repr] of a sequence or a mapping. *)
Class YamlRepr : Type := { repr_yaml : Yaml -> string }.

(** [f"{v}"] *)
Definition fmt {R : YamlRepr} (v : Yaml) : string :=
  match v with
  | YNull => "None"
  | YBool true => "True"
  | YBool false => "False"
  | YInt z => str_int z
  | YStr s => s
  | _ => repr_yaml v
  end.

Definition source_types : list string := ["csv"; "postgres"; "gsheet"].
Definition target_types : list string := ["arcgis_online"].

(** What the constructors of the sources rest on outside the sources at
    hand: [Path(p).expanduser().resolve()], which depends on the file
    system, and the constructor of [GoogleSheetSource], whose module is
    not among the sources. *)
Class SourceEnv : Type := {
  GSheet : Type;
  resolve_path : string -> Result string;
  gsheet_init : Yaml -> Yaml -> Result GSheet
}.

(** The source objects that [_source] can return. *)
Inductive SourceObject {E : SourceEnv} : Type :=
| CsvSource (path : string)
| PostgresSource (dsn query : Yaml)
| GoogleSheetSource (g : GSheet).

Section Validate.
Context {R : YamlRepr} {E : SourceEnv}.

Definition validate_settings (cfg : Yaml) : Result unit :=
  and_then (_require cfg "project") (fun _ =>
  and_then (_require cfg "source.type") (fun _ =>
  and_then (_require cfg "target.type") (fun _ =>
  and_then (and_then (index cfg "source") (fun s => index s "type")) (fun st =>
  and_then (and_then (index cfg "target") (fun t => index t "type")) (fun ty =>
  and_then (in_str_set st source_types) (fun known =>
  if negb known then
    Raise (ValueError ("Unsupported source.type: " ++ fmt st))
  else
    and_then (in_str_set ty target_types) (fun known' =>
    if negb known' then
      Raise (ValueError ("Unsupported target.type: " ++ fmt ty))
    else Ok tt))))))).

(** [d.get(key, default)] on a mapping. *)
Definition get_or (v : Yaml) (key : string) (default : Yaml) : Result Yaml :=
  match v with
  | YMap m =>
      Ok (match PyDict.get m key with Some x => x | None => default end)
  | _ => Raise (AttributeError "object has no attribute 'get'")
  end.

(** [v == s] for a string literal [s]. *)
Definition eq_str (v : Yaml) (s : string) : bool :=
  match v with
  | YStr x => String.eqb x s
  | _ => false
  end.

(** [CsvSource.__init__]: [Path(path)] takes a string and nothing else
    that a settings file can hold; the words of its [TypeError] vary with
    the interpreter. *)
Definition CsvSource_init (path : Yaml) : Result SourceObject :=
  match path with
  | YStr p => and_then (resolve_path p) (fun p' => Ok (CsvSource p'))
  | _ => Raise (TypeError "expected str, bytes or os.PathLike object")
  end.

(** [PostgresSource.__init__] stores its two arguments. *)
Definition PostgresSource_init (dsn query : Yaml) : Result SourceObject :=
  Ok (PostgresSource dsn query).

Definition GoogleSheetSource_init (spreadsheet_id worksheet : Yaml)
  : Result SourceObject :=
  and_then (gsheet_init spreadsheet_id worksheet)
           (fun g => Ok (GoogleSheetSource g)).

(** [SyncManager._source] *)
Definition _source (cfg : Yaml) : Result SourceObject :=
  and_then (and_then (index cfg "source") (fun s => index s "type")) (fun st =>
  and_then (index cfg "source") (fun s =>
  if eq_str st "csv" then
    and_then (index s "path") (fun path => CsvSource_init path)
  else if eq_str st "postgres" then
    and_then (index s "dsn") (fun dsn =>
    and_then (index s "query") (fun query => PostgresSource_init dsn query))
  else if eq_str st "gsheet" then
    and_then (index s "spreadsheet_id") (fun sid =>
    and_then (get_or s "worksheet" (YStr "Sheet1")) (fun ws =>
    GoogleSheetSource_init sid ws))
  else Raise (ValueError ("Unsupported source.type: " ++ fmt st)))).

(** [s.rstrip("/")] *)
Fixpoint rstrip_slash (s : string) : string :=
  match s with
  | EmptyString => EmptyString
  | String c rest =>
      match rstrip_slash rest with
      | EmptyString =>
          if Ascii.eqb c "/"%char then EmptyString else String c EmptyString
      | t => String c t
      end
  end.

(** The fields that [ArcGisOnlineSink.__init__] sets. *)
Record SinkObject : Type := {
  url : string;
  auth : Yaml;
  sink_dry_run : bool
}.

(** [ArcGisOnlineSink.__init__] *)
Definition ArcGisOnlineSink_init (feature_layer_url auth : Yaml)
  (dry_run : bool) : Result SinkObject :=
  match feature_layer_url with
  | YStr u =>
      Ok {| url := rstrip_slash u;
            auth := if truthy auth then auth else YMap [];
            sink_dry_run := dry_run |}
  | _ => Raise (AttributeError "object has no attribute 'rstrip'")
  end.

(** [SyncManager._sink] *)
Definition _sink (cfg : Yaml) (dry_run : bool) : Result SinkObject :=
  and_then (index cfg "target") (fun t =>
  and_then (index t "feature_layer_url") (fun u =>
  and_then (get_or t "auth" (YMap [])) (fun a =>
  ArcGisOnlineSink_init u a dry_run))).

End Validate.

(** A string of [n] slashes. *)
Fixpoint slashes (n : nat) : string :=
  match n with
  | O => EmptyString
  | S n' => String "/"%char (slashes n')
  end.

(** The last character of a string, if it has one. *)
Fixpoint last_char (s : string) : option ascii :=
  match s with
  | EmptyString => None
  | String c EmptyString => Some c
  | String _ rest => last_char rest
  end.

(** What a configuration that passes validation looks like. *)
Definition well_formed (cfg : Yaml) : Prop :=
  exists m src tgt st,
    cfg = YMap m
    /\ PyDict.contains m "project" = true
    /\ PyDict.get m "source" = Some (YMap src)
    /\ PyDict.get src "type" = Some (YStr st)
    /\ In st source_types
    /\ PyDict.get m "target" = Some (YMap tgt)
    /\ PyDict.get tgt "type" = Some (YStr "arcgis_online").

End Config.

(* ===================================================================== *)
(** ** [spatial_etl.py]: the fields of the target layer *)
(* ===================================================================== *)

(** The string methods of Python that the code calls: [str.strip],
    [str.upper] and [str.lower]. *)
Class StrMethods : Type := {
  py_strip : string -> string;
  py_upper : string -> string;
  py_lower : string -> string
}.

Module Align.

(** A field of a layer: a mapping with [name], [type], [alias] and so on. *)
Definition Field : Type := PyDict.t Value.

(** [layer.properties]: its [fields] and what
    [properties.get("globalIdField")] returns. *)
Record LayerProperties : Type := {
  fields : list Field;
  globalIdField : option Value
}.

Definition AttributeError (msg : string) : Exn :=
  {| exc_class := "AttributeError"; exc_arg := msg |}.

(** [bool(v)] *)
Definition truthy (v : Value) : bool :=
  match v with
  | VNone => false
  | VBool b => b
  | VInt z => negb (z =? 0)%Z
  | VStr s => negb (String.eqb s "")
  end.

(** [c in names] for a string [c] and a set of field names. *)
Definition has_name (names : list Value) (c : string) : bool :=
  existsb (fun v => match v with
                    | VStr s => String.eqb s c
                    | _ => false
                    end) names.

Section Layer.
Context {SM : StrMethods}.

(** The set comprehension of [get_layer_fields]. *)
Fixpoint field_names (fs : list Field) : Result (list Value) :=
  match fs with
  | [] => Ok []
  | f :: rest =>
      match PyDict.get f "name" with
      | None => Raise (KeyError "name")
      | Some v =>
          match field_names rest with
          | Ok names => Ok (v :: names)
          | Raise e => Raise e
          end
      end
  end.

(** [get_layer_fields]; the message of a [KeyError] is its key, quoted. *)
Definition get_layer_fields (layer : LayerProperties) : Result (list Value) :=
  match field_names (fields layer) with
  | Ok names => Ok names
  | Raise e =>
      Raise (RuntimeError ("Failed to retrieve layer fields: '"
                           ++ exc_arg e ++ "'"))
  end.

(** [(layer.properties.get("globalIdField") or "").strip()] *)
Definition stripped_global_id (layer : LayerProperties) : Result string :=
  match globalIdField layer with
  | None => Ok (py_strip "")
  | Some v =>
      if truthy v then
        match v with
        | VStr s => Ok (py_strip s)
        | _ => Raise (AttributeError "object has no attribute 'strip'")
        end
      else Ok (py_strip "")
  end.

(** [get_protected_fields] *)
Definition get_protected_fields (layer : LayerProperties)
  : Result (list string) :=
  match stripped_global_id layer with
  | Ok gid =>
      if negb (String.eqb gid "") then Ok ["OBJECTID"; gid]
      else Ok ["OBJECTID"]
  | Raise e =>
      Raise (RuntimeError ("Failed to retrieve protected fields: "
                           ++ exc_arg e))
  end.

(** [sdf.rename(columns=rename_map)], on the column labels. *)
Definition rename (columns : list string) (rename_map : PyDict.t string)
  : list string :=
  map (fun c => match PyDict.get rename_map c with
                | Some c' => c'
                | None => c
                end) columns.

Definition is_protected (protected : list string) (c : string) : bool :=
  existsb (String.eqb c) protected.

(** [align_fields_to_layer], with the data frame given by its column
    labels: the labels after renaming, and the columns to keep. *)
Definition align_fields_to_layer (columns : list string)
  (layer : LayerProperties) (rename_map : option (PyDict.t string))
  : Result (list string * list string) :=
  let columns' :=
    match rename_map with
    | Some (kv :: m) => rename columns (kv :: m)
    | _ => columns
    end in
  match get_layer_fields layer with
  | Raise e =>
      Raise (RuntimeError ("Failed to align fields to layer: " ++ exc_arg e))
  | Ok layer_fields =>
      match get_protected_fields layer with
      | Raise e =>
          Raise (RuntimeError ("Failed to align fields to layer: "
                               ++ exc_arg e))
      | Ok protected =>
          Ok (columns',
              filter (fun c => has_name layer_fields c
                               && negb (is_protected protected c)) columns')
      end
  end.

End Layer.

End Align.

(* ===================================================================== *)
(** ** [run_etl.py] and [pipeline/arcgis.py]: the object id field *)
(* ===================================================================== *)

Module LayerFields.
Import Align.

(** The field that both files put in front. *)
Definition OID_FIELD : Field :=
  [("name", VStr "OBJECTID");
   ("type", VStr "esriFieldTypeOID");
   ("alias", VStr "OBJECTID");
   ("sqlType", VStr "sqlTypeInteger");
   ("nullable", VBool false);
   ("editable", VBool false)].

(** [DEFAULT_LAYER_FIELDS] of [config/constant.py], as the module is
    loaded. *)
Definition DEFAULT_LAYER_FIELDS_0 : list Field :=
  [[("name", VStr "fullname");
    ("type", VStr "esriFieldTypeString");
    ("alias", VStr "Full Name");
    ("sqlType", VStr "sqlTypeVarchar");
    ("length", VInt 255);
    ("nullable", VBool true);
    ("editable", VBool true)]].

Section Fields.
Context {SM : StrMethods}.

(** [f.get("name", "")] with a string method applied to it. *)
Definition name_with (method : string -> string) (attr : string) (f : Field)
  : Result string :=
  match PyDict.get f "name" with
  | None => Ok (method "")
  | Some (VStr s) => Ok (method s)
  | Some _ =>
      Raise (AttributeError ("object has no attribute '" ++ attr ++ "'"))
  end.

(** [f.get("type") == "esriFieldTypeOID"] *)
Definition is_oid_type (f : Field) : bool :=
  match PyDict.get f "type" with
  | Some (VStr t) => String.eqb t "esriFieldTypeOID"
  | _ => false
  end.

(** The [any(...)] of [ensure_oid]: it stops at the first field that is an
    object id. *)
Fixpoint has_oid (fields : list Field) : Result bool :=
  match fields with
  | [] => Ok false
  | f :: rest =>
      match name_with py_upper "upper" f with
      | Raise e => Raise e
      | Ok u =>
          if String.eqb u "OBJECTID" && is_oid_type f then Ok true
          else has_oid rest
      end
  end.

(** [ensure_oid] of [run_etl.py]: a new list when the field is added. *)
Definition ensure_oid (fields : list Field) : Result (list Field) :=
  match has_oid fields with
  | Raise e => Raise e
  | Ok true => Ok fields
  | Ok false => Ok (OID_FIELD :: fields)
  end.

(** The [any(...)] of [_ensure_objectid_field]: the name alone decides. *)
Fixpoint has_objectid (fields : list Field) : Result bool :=
  match fields with
  | [] => Ok false
  | f :: rest =>
      match name_with py_lower "lower" f with
      | Raise e => Raise e
      | Ok n => if String.eqb n "objectid" then Ok true else has_objectid rest
      end
  end.

(** The list objects that [ArcGISService] can be handed or falls back on:
    the module's [DEFAULT_LAYER_FIELDS] and the lists of its callers. *)
Record Store : Type := {
  DEFAULT_LAYER_FIELDS : list Field;
  objects : list (list Field)
}.

Inductive Ref : Type :=
| Default
| Object (i : nat).

Definition deref (s : Store) (r : Ref) : list Field :=
  match r with
  | Default => DEFAULT_LAYER_FIELDS s
  | Object i => nth i (objects s) []
  end.

Fixpoint replace_nth {A : Type} (i : nat) (l : list A) (x : A) : list A :=
  match l, i with
  | [], _ => []
  | _ :: l', O => x :: l'
  | a :: l', S i' => a :: replace_nth i' l' x
  end.

Definition assign (s : Store) (r : Ref) (l : list Field) : Store :=
  match r with
  | Default => {| DEFAULT_LAYER_FIELDS := l; objects := objects s |}
  | Object i =>
      {| DEFAULT_LAYER_FIELDS := DEFAULT_LAYER_FIELDS s;
         objects := replace_nth i (objects s) l |}
  end.

(** [ArcGISService._ensure_objectid_field]: [fields.insert(0, ...)] changes
    the list it was given, and that list is what it returns. *)
Definition _ensure_objectid_field (fields : Ref) : St Store Ref :=
  fun s =>
    match has_objectid (deref s fields) with
    | Raise e => (Raise e, s)
    | Ok true => (Ok fields, s)
    | Ok false => (Ok fields, assign s fields (OID_FIELD :: deref s fields))
    end.

(** [fields or DEFAULT_LAYER_FIELDS] *)
Definition fields_or_default (s : Store) (fields : option Ref) : Ref :=
  match fields with
  | None => Default
  | Some r => match deref s r with [] => Default | _ => r end
  end.

(** [ArcGISService._prepare_layer_fields] *)
Definition _prepare_layer_fields (fields : option Ref) : St Store Ref :=
  fun s => _ensure_objectid_field (fields_or_default s fields) s.

End Fields.

End LayerFields.

(* ===================================================================== *)
(** ** [utils/etl.py]: coordinates *)
(* ===================================================================== *)

From Stdlib Require QArith.

Module Coordinates.
Import QArith_base.
Local Close Scope Q_scope.

(** A [float64] as the comparisons of [clean_coordinates] see it: not a
    number, an infinity, or a finite value, which is a rational. *)
Inductive Coord : Type :=
| NaN
| Inf (negative : bool)
| Fin (q : Q).

(** [x >= lo] and [x <= hi] for integer bounds. *)
Definition ge_int (x : Coord) (lo : Z) : bool :=
  match x with
  | NaN => false
  | Inf negative => negb negative
  | Fin q => Qle_bool (inject_Z lo) q
  end.

Definition le_int (x : Coord) (hi : Z) : bool :=
  match x with
  | NaN => false
  | Inf negative => negative
  | Fin q => Qle_bool q (inject_Z hi)
  end.

Definition is_nan (x : Coord) : bool :=
  match x with NaN => true | _ => false end.

Section Clean.
Variable Row : Type.
Variables longitude latitude : Row -> Coord.

(** [df.dropna(subset=["longitude", "latitude"])] *)
Definition dropna (df : list Row) : list Row :=
  filter (fun r => negb (is_nan (longitude r)) && negb (is_nan (latitude r)))
         df.

Definition in_bounds (r : Row) : bool :=
  ge_int (longitude r) (-180) && le_int (longitude r) 180
  && ge_int (latitude r) (-90) && le_int (latitude r) 90.

Definition clean_coordinates (df : list Row) : Result (list Row) :=
  let df1 := dropna df in
  let df2 := filter in_bounds df1 in
  match df2 with
  | [] => Raise (ValueError "No valid rows after cleaning coordinates.")
  | _ => Ok df2
  end.

(** A coordinate within integer bounds. *)
Definition within (x : Coord) (lo hi : Z) : Prop :=
  exists q, x = Fin q /\ (inject_Z lo <= q)%Q /\ (q <= inject_Z hi)%Q.

End Clean.

End Coordinates.

(* ===================================================================== *)
(** ** [sources/postgress_source.py]: rows as records *)
(* ===================================================================== *)

Module Sources.

(** [dict(zip(cols, row))] *)
Definition dict_zip {V : Type} (cols : list string) (row : list V)
  : PyDict.t V :=
  fold_left (fun d kv => PyDict.set d (fst kv) (snd kv)) (combine cols row)
            PyDict.empty.

End Sources.

(* ===================================================================== *)
(** ** [spatial_etl.py]: the whole pipeline *)
(* ===================================================================== *)

Module SpatialRun.
Import SpatialEtl.

(** A spatially enabled data frame: its column labels and its rows. *)
Record SpatialFrame (Row : Type) : Type := {
  columns : list string;
  rows : list Row
}.
Arguments columns {Row} _.
Arguments rows {Row} _.

Section Run.
Context {SM : StrMethods} {SR : StrRepr}.
Variables DF Row FeatureSet Err L : Type.
(** [GeoAccessor.from_xy(df, x_column="longitude", y_column="latitude",
    sr=sr)] *)
Variable from_xy : DF -> Z -> Result (SpatialFrame Row).
(** What [rename] does to a row. *)
Variable relabel : PyDict.t string -> Row -> Row.
(** [layer.properties] *)
Variable properties : L -> Align.LayerProperties.
Variable to_featureset : list Row -> list string -> Result FeatureSet.
Variable edit_features : L -> FeatureSet -> Result (EditResult Err) * L.
Variable err_str : option Err -> string.
(** [layer.query(return_count_only=True)] *)
Variable query_count : L -> Result Z.

Definition build_spatial_df (df : DF) (sr : Z) : Result (SpatialFrame Row) :=
  match from_xy df sr with
  | Ok sdf => Ok sdf
  | Raise e =>
      Raise (RuntimeError ("Failed to build spatial dataframe: "
                           ++ exc_str e))
  end.

Definition verify_layer_count : St (Platform L FeatureSet) Z :=
  fun p =>
    match query_count (layer p) with
    | Ok n => (Ok n, p)
    | Raise e =>
        (Raise (RuntimeError ("Failed to verify layer count: " ++ exc_str e)),
         p)
    end.

(** The rows of the frame that [align_fields_to_layer] hands back. *)
Definition renamed_rows (sdf : SpatialFrame Row)
  (rename_map : option (PyDict.t string)) : list Row :=
  match rename_map with
  | Some (kv :: m) => map (relabel (kv :: m)) (rows sdf)
  | _ => rows sdf
  end.

Definition run_spatial_etl (df : DF) (rename_map : option (PyDict.t string))
  (sr : Z) (batch_size : Z) : St (Platform L FeatureSet) Z :=
  try_except
    (sdf <- lift (build_spatial_df df sr) ;;
     aligned <- (fun p =>
                   (Align.align_fields_to_layer (columns sdf)
                      (properties (layer p)) rename_map, p)) ;;
     append_batches Row FeatureSet Err L to_featureset edit_features err_str
       (renamed_rows sdf rename_map) (snd aligned) batch_size ;;
     verify_layer_count)
    (fun e => raise (RuntimeError ("Spatial ETL failed: " ++ exc_str e))).

End Run.

End SpatialRun.

(* ===================================================================== *)
(** ** Sample inputs *)
(* ===================================================================== *)

(** Parameters under which fingerprints can be read: the identity in the
    place of the hash, a bar between fields, and [id] as the key field. *)
Definition plain_params : CdcParams :=
  {| digest := fun s => s; separator := "|"; default_key_col := "id" |}.

(** A rendering of rows good enough to tell them apart. *)
Definition plain_builtins : Builtins :=
  {| repr_dict := fun rec =>
       ("{" ++ String.concat ", " (map canonical_field rec) ++ "}")%string |}.

(** The [repr] of a string that holds no quote, backslash or control
    character. *)
Definition plain_str_repr : StrRepr :=
  {| repr_str := fun s => ("'" ++ s ++ "'")%string |}.

Definition alice : Record_ :=
  [("id", VInt 1); ("name", VStr "Alice"); ("value", VInt 100)].

(** The same non-key fields as [alice], inserted in another order, under
    another key. *)
Definition alice_reordered : Record_ :=
  [("value", VInt 100); ("id", VInt 7); ("name", VStr "Alice")].

(** A row whose key is the string [1], not the integer. *)
Definition bob : Record_ :=
  [("id", VStr "1"); ("name", VStr "Bob"); ("value", VInt 5)].

Definition carol : Record_ :=
  [("id", VInt 2); ("name", VStr "Carol"); ("value", VInt 7)].

(** A row without the key field. *)
Definition keyless : Record_ := [("name", VStr "Dave")].

Definition fresh_world : World :=
  {| state_file := None; logged := []; remote := []; sink_calls := [] |}.

Definition corrupt_world : World :=
  {| state_file := Some (Unparsable "{not json");
     logged := []; remote := []; sink_calls := [] |}.

Definition manager (dry : bool) : SyncManager :=
  {| project := "demo"; key_col := "id"; dry_run := dry |}.

(** A sink whose platform is unreachable. *)
Definition unavailable_sink : Sink :=
  {| upsert := fun _ _ r =>
       {| so_remote := r; so_logged := [];
          so_raised := Some (RuntimeError "platform unreachable") |} |}.

(** The world after a first run over [alice] and [carol]. *)
Definition world_after_first_run : World :=
  snd (@run plain_params plain_builtins (manager false) [alice; carol]
         fresh_world).

(** A layer that counts its calls and rejects the odd rows it is sent. *)
Definition parity_platform (l : nat) (fs : list nat)
  : SpatialEtl.EditResult string * nat :=
  ({| SpatialEtl.addResults :=
        Some (map (fun x => {| SpatialEtl.success := Nat.even x;
                               SpatialEtl.error := Some "odd row" |}) fs) |},
   S l).

(** A layer that cannot be reached. *)
Definition unreachable_platform (l : nat) (fs : list nat)
  : Result (SpatialEtl.EditResult string) * nat :=
  (Raise (RuntimeError "connection refused"), l).

(** A world whose state file holds a key that no current record has. *)
Definition stale_world : World :=
  {| state_file := Some (JsonObject [("9", "name=Zoe|value=1")]);
     logged := []; remote := []; sink_calls := [] |}.

(** A layer that rejects the one row of its first call and cannot be
    reached after that. *)
Definition flaky_platform (l : nat) (fs : list nat)
  : Result (SpatialEtl.EditResult string) * nat :=
  match l with
  | O =>
      (Ok {| SpatialEtl.addResults :=
               Some [{| SpatialEtl.success := false;
                        SpatialEtl.error := Some "bad row" |}] |}, 1)
  | S _ => (Raise (RuntimeError "connection refused"), S l)
  end.

(* ===================================================================== *)
(** ** More sample inputs *)
(* ===================================================================== *)

(** The string methods on ASCII letters and blanks. *)
Definition ascii_upper (c : ascii) : ascii :=
  let n := nat_of_ascii c in
  if (97 <=? n)%nat && (n <=? 122)%nat then ascii_of_nat (n - 32) else c.

Definition ascii_lower (c : ascii) : ascii :=
  let n := nat_of_ascii c in
  if (65 <=? n)%nat && (n <=? 90)%nat then ascii_of_nat (n + 32) else c.

Fixpoint map_string (f : ascii -> ascii) (s : string) : string :=
  match s with
  | EmptyString => EmptyString
  | String c rest => String (f c) (map_string f rest)
  end.

Fixpoint lstrip_blanks (s : string) : string :=
  match s with
  | String " "%char rest => lstrip_blanks rest
  | _ => s
  end.

Fixpoint rstrip_blanks (s : string) : string :=
  match s with
  | EmptyString => EmptyString
  | String c rest =>
      match rstrip_blanks rest with
      | EmptyString =>
          if Ascii.eqb c " "%char then EmptyString else String c EmptyString
      | t => String c t
      end
  end.

Definition ascii_methods : StrMethods :=
  {| py_strip := fun s => rstrip_blanks (lstrip_blanks s);
     py_upper := map_string ascii_upper;
     py_lower := map_string ascii_lower |}.

Definition plain_yaml_repr : Config.YamlRepr :=
  {| Config.repr_yaml := fun _ => "..." |}.

(** A file system in which every path resolves to itself, and a
    spreadsheet source that keeps its two settings. *)
Definition plain_source_env : Config.SourceEnv :=
  {| Config.GSheet := Config.Yaml * Config.Yaml;
     Config.resolve_path := fun p => Ok p;
     Config.gsheet_init := fun sid ws => Ok (sid, ws) |}.

(** A configuration as the scaffold writes it, with slashes after the URL. *)
Definition sample_cfg : Config.Yaml :=
  Config.YMap
    [("project", Config.YStr "demo");
     ("source", Config.YMap [("type", Config.YStr "csv");
                             ("path", Config.YStr "./data/sample.csv");
                             ("key_column", Config.YStr "id")]);
     ("target", Config.YMap
        [("type", Config.YStr "arcgis_online");
         ("feature_layer_url",
          Config.YStr "https://host/FeatureServer/0//")])].

(** A layer with an object id, a global id, and two attributes. *)
Definition sample_layer : Align.LayerProperties :=
  {| Align.fields := [[("name", VStr "OBJECTID")];
                      [("name", VStr "GlobalID")];
                      [("name", VStr "fullname")];
                      [("name", VStr "phone")]];
     Align.globalIdField := Some (VStr " GlobalID ") |}.

Definition sample_columns : list string :=
  ["OBJECTID"; "full_name"; "GlobalID"; "phone"; "longitude"].

(** A store whose default is the module's, with one list of a caller. *)
Definition sample_store : LayerFields.Store :=
  {| LayerFields.DEFAULT_LAYER_FIELDS := LayerFields.DEFAULT_LAYER_FIELDS_0;
     LayerFields.objects := [[[("name", VStr "phone")]]] |}.

(** Places as pairs of longitude and latitude. *)
Definition sample_places : list (Coordinates.Coord * Coordinates.Coord) :=
  [(Coordinates.Fin (QArith_base.Qmake 7 2), Coordinates.Fin (QArith_base.Qmake 9 1));
   (Coordinates.NaN, Coordinates.Fin (QArith_base.Qmake 1 1));
   (Coordinates.Fin (QArith_base.Qmake 200 1), Coordinates.Fin (QArith_base.Qmake 0 1));
   (Coordinates.Fin (QArith_base.Qmake (-180) 1), Coordinates.Fin (QArith_base.Qmake 90 1))].

(** The sink built from [sample_cfg] for a dry run. *)
Definition sample_sink : Config.SinkObject :=
  {| Config.url := "https://host/FeatureServer/0";
     Config.auth := Config.YMap [];
     Config.sink_dry_run := true |}.

(** A frame of numbers under [sample_columns]. *)
Definition sample_frame (df : list nat) (sr : Z)
  : Result (SpatialRun.SpatialFrame nat) :=
  Ok {| SpatialRun.columns := sample_columns; SpatialRun.rows := df |}.

(* ===================================================================== *)
(** ** Facts about dictionaries *)
(* ===================================================================== *)

Module PyDictFacts.
Import PyDict.

Section Facts.
Context {V : Type}.
Implicit Types (d : PyDict.t V) (k : string) (v : V).

Lemma get_set_same d k v : get (set d k v) k = Some v.
Proof.
  induction d as [|[k' v'] d IH]; simpl.
  - now rewrite String.eqb_refl.
  - destruct (String.eqb k' k) eqn:E; simpl; rewrite E; auto.
Qed.

Lemma get_set_other d k k' v : k <> k' -> get (set d k v) k' = get d k'.
Proof.
  intros Hne. induction d as [|[k0 v0] d IH]; simpl.
  - destruct (String.eqb k k') eqn:E; auto.
    apply String.eqb_eq in E. contradiction.
  - destruct (String.eqb k0 k) eqn:E; simpl.
    + apply String.eqb_eq in E. subst k0.
      destruct (String.eqb k k') eqn:E'; auto.
      apply String.eqb_eq in E'. contradiction.
    + now rewrite IH.
Qed.

Lemma get_none_iff d k : get d k = None <-> ~ In k (keys d).
Proof.
  induction d as [|[k' v'] d IH]; simpl.
  - tauto.
  - destruct (String.eqb k' k) eqn:E.
    + apply String.eqb_eq in E. split; [discriminate | tauto].
    + apply String.eqb_neq in E. rewrite IH. tauto.
Qed.

Lemma contains_false_iff d k : contains d k = false <-> ~ In k (keys d).
Proof.
  unfold contains. rewrite <- get_none_iff.
  destruct (get d k); split; congruence.
Qed.

Lemma contains_true_iff d k : contains d k = true <-> In k (keys d).
Proof.
  destruct (contains d k) eqn:E.
  - split; auto. intros _.
    destruct (in_dec String.string_dec k (keys d)) as [Hin|Hn]; auto.
    apply contains_false_iff in Hn. congruence.
  - apply contains_false_iff in E. split; [discriminate | tauto].
Qed.

Lemma get_some_in d k v : get d k = Some v -> In (k, v) (items d).
Proof.
  induction d as [|[k' v'] d IH]; simpl; [discriminate|].
  destruct (String.eqb k' k) eqn:E.
  - apply String.eqb_eq in E. intros [= ->]. subst. now left.
  - intros H. right. now apply IH.
Qed.

Lemma in_get_some d k v : wf d -> In (k, v) (items d) -> get d k = Some v.
Proof.
  unfold wf, items. induction d as [|[k' v'] d IH]; simpl; [tauto|].
  intros Hnd [Heq|Hin].
  - injection Heq as -> ->. now rewrite String.eqb_refl.
  - inversion Hnd as [|? ? Hk Hnd']; subst.
    destruct (String.eqb k' k) eqn:E.
    + apply String.eqb_eq in E. subst k'.
      exfalso. apply Hk. change k with (fst (k, v)). now apply in_map.
    + now apply IH.
Qed.

Lemma set_absent d k v : ~ In k (keys d) -> set d k v = d ++ [(k, v)].
Proof.
  induction d as [|[k' v'] d IH]; simpl; auto.
  intros Hn. destruct (String.eqb k' k) eqn:E.
  - apply String.eqb_eq in E. tauto.
  - f_equal. apply IH. tauto.
Qed.

Lemma keys_set_present d k v : In k (keys d) -> keys (set d k v) = keys d.
Proof.
  induction d as [|[k' v'] d IH]; simpl; [tauto|].
  intros Hin. destruct (String.eqb k' k) eqn:E; simpl; auto.
  f_equal. apply IH. destruct Hin as [->|]; auto.
  rewrite String.eqb_refl in E. discriminate.
Qed.

Lemma wf_set d k v : wf d -> wf (set d k v).
Proof.
  unfold wf. intros Hnd.
  destruct (in_dec String.string_dec k (keys d)) as [Hin|Hn].
  - now rewrite keys_set_present.
  - rewrite set_absent by assumption. unfold keys in *.
    rewrite map_app. simpl.
    apply NoDup_app; auto.
    + constructor; [simpl; tauto | constructor].
    + intros x Hx [<-|[]]. contradiction.
Qed.

Lemma wf_empty : wf (@empty V).
Proof. constructor. Qed.

Lemma same_key_same_value d k v v' :
  wf d -> In (k, v) (items d) -> In (k, v') (items d) -> v = v'.
Proof.
  intros Hwf H1 H2.
  apply (in_get_some _ _ _ Hwf) in H1.
  apply (in_get_some _ _ _ Hwf) in H2. congruence.
Qed.

End Facts.

Section Comprehension.
Context {V W : Type} (f : V -> W).

Lemma keys_pointwise d : keys (pointwise f d) = keys d.
Proof. unfold keys, pointwise. rewrite map_map. reflexivity. Qed.

Lemma get_pointwise d k : get (pointwise f d) k = option_map f (get d k).
Proof.
  induction d as [|[k' v'] d IH]; simpl; auto.
  destruct (String.eqb k' k); auto.
Qed.

Lemma comprehension_fold (d : PyDict.t V) (acc : PyDict.t W) :
  NoDup (keys acc ++ keys d) ->
  fold_left (fun a kv => set a (fst kv) (f (snd kv))) d acc
  = acc ++ pointwise f d.
Proof.
  revert acc. induction d as [|[k v] d IH]; intros acc Hnd; simpl.
  - now rewrite app_nil_r.
  - simpl in Hnd.
    assert (Hk : ~ In k (keys acc)).
    { intros Hin. apply NoDup_remove_2 in Hnd. apply Hnd.
      apply in_or_app. now left. }
    rewrite set_absent by assumption.
    rewrite IH.
    + now rewrite <- app_assoc.
    + unfold keys in *. rewrite map_app. simpl. rewrite <- app_assoc.
      simpl. exact Hnd.
Qed.

Lemma comprehension_pointwise (d : PyDict.t V) :
  wf d -> comprehension f d = pointwise f d.
Proof.
  intros Hwf. unfold comprehension, items, empty.
  now rewrite comprehension_fold.
Qed.

End Comprehension.

End PyDictFacts.

(* ===================================================================== *)
(** ** The order of field names *)
(* ===================================================================== *)

Lemma ascii_compare_lt_trans (a b c : ascii) :
  Ascii.compare a b = Lt -> Ascii.compare b c = Lt -> Ascii.compare a c = Lt.
Proof.
  unfold Ascii.compare. rewrite !N.compare_lt_iff. apply N.lt_trans.
Qed.

Lemma string_compare_lt_trans (s1 s2 s3 : string) :
  String.compare s1 s2 = Lt -> String.compare s2 s3 = Lt ->
  String.compare s1 s3 = Lt.
Proof.
  revert s2 s3. induction s1 as [|a s1 IH]; intros [|b s2] [|c s3];
    simpl; try congruence.
  destruct (Ascii.compare a b) eqn:Eab; try discriminate;
    destruct (Ascii.compare b c) eqn:Ebc; try discriminate; intros H1 H2.
  - apply Ascii.compare_eq_iff in Eab, Ebc. subst.
    rewrite (proj2 (N.compare_eq_iff _ _) eq_refl : Ascii.compare c c = Eq).
    eauto.
  - apply Ascii.compare_eq_iff in Eab. subst. now rewrite Ebc.
  - apply Ascii.compare_eq_iff in Ebc. subst. now rewrite Eab.
  - now rewrite (ascii_compare_lt_trans _ _ _ Eab Ebc).
Qed.

Lemma string_compare_refl (s : string) : String.compare s s = Eq.
Proof.
  induction s as [|a s IH]; simpl; auto.
  now rewrite (proj2 (N.compare_eq_iff _ _) eq_refl : Ascii.compare a a = Eq).
Qed.

Lemma string_leb_trans (s1 s2 s3 : string) :
  String.leb s1 s2 = true -> String.leb s2 s3 = true ->
  String.leb s1 s3 = true.
Proof.
  unfold String.leb.
  destruct (String.compare s1 s2) eqn:E12; try discriminate;
    destruct (String.compare s2 s3) eqn:E23; try discriminate; intros _ _.
  - apply String.compare_eq_iff in E12, E23. subst.
    now rewrite string_compare_refl.
  - apply String.compare_eq_iff in E12. subst. now rewrite E23.
  - apply String.compare_eq_iff in E23. subst. now rewrite E12.
  - now rewrite (string_compare_lt_trans _ _ _ E12 E23).
Qed.

Lemma string_leb_false (s1 s2 : string) :
  String.leb s1 s2 = false -> String.leb s2 s1 = true.
Proof.
  intros H. destruct (String.leb_total s1 s2); congruence.
Qed.

(* ===================================================================== *)
(** ** Fingerprints *)
(* ===================================================================== *)

Section FingerprintFacts.
Context {P : CdcParams}.

Lemma insert_field_perm fv l : Permutation (fv :: l) (insert_field fv l).
Proof.
  induction l as [|fv' l IH]; simpl; auto.
  destruct (String.leb (fst fv) (fst fv')); auto.
  rewrite perm_swap. now constructor.
Qed.

Lemma sorted_fields_perm l : Permutation l (sorted_fields l).
Proof.
  induction l as [|fv l IH]; simpl; auto.
  rewrite <- insert_field_perm. now constructor.
Qed.

Lemma insert_field_sorted fv l :
  StronglySorted name_le l -> StronglySorted name_le (insert_field fv l).
Proof.
  induction 1 as [|fv' l Hs IH Hall]; simpl.
  - repeat constructor.
  - destruct (String.leb (fst fv) (fst fv')) eqn:E.
    + constructor; [now constructor|].
      constructor; [exact E|].
      eapply Forall_impl; [|exact Hall].
      intros x Hx. unfold name_le in *. eapply string_leb_trans; eauto.
    + constructor; [exact IH|].
      apply (Permutation_Forall (insert_field_perm fv l)).
      constructor; [|exact Hall].
      now apply string_leb_false.
Qed.

Lemma sorted_fields_sorted l : StronglySorted name_le (sorted_fields l).
Proof.
  induction l as [|fv l IH]; simpl.
  - constructor.
  - now apply insert_field_sorted.
Qed.

Lemma same_name_same_field (l : list (string * Value)) a b :
  NoDup (map fst l) -> In a l -> In b l -> fst a = fst b -> a = b.
Proof.
  intros Hnd Ha Hb Hab. destruct a as [ka va], b as [kb vb]. simpl in Hab.
  subst kb. f_equal.
  exact (PyDictFacts.same_key_same_value l ka va vb Hnd Ha Hb).
Qed.

(** A list of fields with distinct names has one sorted arrangement. *)
Lemma sorted_unique (l l' : list (string * Value)) :
  NoDup (map fst l) ->
  StronglySorted name_le l -> StronglySorted name_le l' ->
  Permutation l l' -> l = l'.
Proof.
  revert l'. induction l as [|a l IH]; intros l' Hnd Hs Hs' Hp.
  - apply Permutation_nil in Hp. now subst.
  - destruct l' as [|a' l'].
    { apply Permutation_sym, Permutation_nil in Hp. discriminate. }
    assert (Haa : a = a').
    { assert (Hin : In a (a' :: l')) by (apply (Permutation_in _ Hp); now left).
      assert (Hin' : In a' (a :: l)).
      { apply (Permutation_in _ (Permutation_sym Hp)). now left. }
      destruct Hin as [->|Hin]; auto.
      destruct Hin' as [<-|Hin']; auto.
      inversion Hs as [|? ? _ Hall]; subst.
      inversion Hs' as [|? ? _ Hall']; subst.
      rewrite Forall_forall in Hall, Hall'.
      apply (same_name_same_field (a :: l)); simpl; auto.
      apply String.leb_antisym; [apply (Hall _ Hin') | apply (Hall' _ Hin)]. }
    subst a'. f_equal.
    inversion Hnd; inversion Hs; inversion Hs'; subst.
    apply IH; auto. now apply Permutation_cons_inv in Hp.
Qed.

Lemma sorted_fields_permutation (l l' : list (string * Value)) :
  NoDup (map fst l) -> Permutation l l' -> sorted_fields l = sorted_fields l'.
Proof.
  intros Hnd Hp. apply sorted_unique.
  - apply (Permutation_NoDup (l := map fst l)); auto.
    apply Permutation_map, sorted_fields_perm.
  - apply sorted_fields_sorted.
  - apply sorted_fields_sorted.
  - rewrite <- (sorted_fields_perm l), <- (sorted_fields_perm l'). exact Hp.
Qed.

Lemma non_key_fields_names rec key_col :
  PyDict.wf rec -> NoDup (map fst (non_key_fields rec key_col)).
Proof.
  unfold PyDict.wf, PyDict.keys, non_key_fields, PyDict.items.
  induction rec as [|[k v] rec IH]; simpl; intros Hnd; [constructor|].
  inversion Hnd as [|? ? Hk Hnd']; subst.
  destruct (String.eqb k key_col); simpl; auto.
  constructor; auto.
  intros Hin. apply Hk. apply in_map_iff in Hin as [x [Hx Hin]].
  apply filter_In in Hin as [Hin _]. rewrite <- Hx. now apply in_map.
Qed.

Lemma in_non_key_fields rec key_col f v :
  PyDict.wf rec ->
  In (f, v) (non_key_fields rec key_col)
  <-> f <> key_col /\ PyDict.get rec f = Some v.
Proof.
  intros Hwf. unfold non_key_fields. rewrite filter_In. simpl.
  rewrite negb_true_iff, String.eqb_neq. split.
  - intros [Hin Hne]. split; auto. now apply PyDictFacts.in_get_some.
  - intros [Hne Hget]. split; auto. now apply PyDictFacts.get_some_in.
Qed.

(** Records that agree on every field but the key have the same non-key
    fields, up to their order. *)
Lemma non_key_fields_permutation r1 r2 key_col :
  PyDict.wf r1 -> PyDict.wf r2 ->
  (forall f, f <> key_col -> PyDict.get r1 f = PyDict.get r2 f) ->
  Permutation (non_key_fields r1 key_col) (non_key_fields r2 key_col).
Proof.
  intros H1 H2 Hagree.
  apply NoDup_Permutation.
  - eapply NoDup_map_inv. now apply non_key_fields_names.
  - eapply NoDup_map_inv. now apply non_key_fields_names.
  - intros [f v]. rewrite !in_non_key_fields by assumption.
    split; intros [Hne Hg]; split; auto.
    + now rewrite <- Hagree.
    + now rewrite Hagree.
Qed.

Lemma permutation_same_get (r1 r2 : Record_) f :
  PyDict.wf r1 -> Permutation r1 r2 -> PyDict.get r1 f = PyDict.get r2 f.
Proof.
  intros Hwf Hp.
  assert (Hwf2 : PyDict.wf r2).
  { unfold PyDict.wf, PyDict.keys in *.
    eapply Permutation_NoDup; [|exact Hwf]. now apply Permutation_map. }
  destruct (PyDict.get r1 f) as [v|] eqn:E1.
  - symmetry. apply PyDictFacts.in_get_some; auto.
    apply (Permutation_in _ Hp). now apply PyDictFacts.get_some_in.
  - destruct (PyDict.get r2 f) as [v|] eqn:E2; auto.
    apply PyDictFacts.get_some_in in E2.
    apply (Permutation_in _ (Permutation_sym Hp)) in E2.
    apply PyDictFacts.in_get_some in E2; auto. congruence.
Qed.

End FingerprintFacts.

(* ===================================================================== *)
(** ** The diff *)
(* ===================================================================== *)

Section DiffFacts.
Context {P : CdcParams}.

Lemma diff_fold (prev : State) (l : list (string * Record_))
  (acc : list Record_ * list Record_) :
  fold_left (diff_step prev) l acc
  = (fst acc ++ map snd (filter (key_absent prev) l),
     snd acc ++ map snd (filter (fingerprint_differs prev) l)).
Proof.
  revert acc. induction l as [|kr l IH]; intros [ins upd]; simpl.
  - now rewrite !app_nil_r.
  - rewrite IH. unfold diff_step, key_absent, fingerprint_differs,
      PyDict.contains.
    destruct (PyDict.get prev (fst kr)) as [h|]; simpl.
    + destruct (String.eqb h (record_hash1 (snd kr))); simpl; auto.
      now rewrite <- app_assoc.
    + now rewrite <- app_assoc.
Qed.

Lemma diff_by_hash_inserts (D : Dataset) (S : State) :
  fst (diff_by_hash D S) = map snd (filter (key_absent S) (PyDict.items D)).
Proof. unfold diff_by_hash. now rewrite diff_fold. Qed.

Lemma diff_by_hash_updates (D : Dataset) (S : State) :
  snd (diff_by_hash D S)
  = map snd (filter (fingerprint_differs S) (PyDict.items D)).
Proof. unfold diff_by_hash. now rewrite diff_fold. Qed.

Lemma diff_by_hash_pair (D : Dataset) (S : State) :
  diff_by_hash D S
  = (map snd (filter (key_absent S) (PyDict.items D)),
     map snd (filter (fingerprint_differs S) (PyDict.items D))).
Proof. unfold diff_by_hash. now rewrite diff_fold. Qed.

(** Every record the diff returns is a value of the current dataset. *)
Lemma diff_by_hash_from_dataset (D : Dataset) (S : State) (r : Record_) :
  In r (fst (diff_by_hash D S) ++ snd (diff_by_hash D S)) ->
  exists k, In (k, r) (PyDict.items D).
Proof.
  rewrite diff_by_hash_inserts, diff_by_hash_updates.
  intros Hin. apply in_app_or in Hin.
  destruct Hin as [Hin|Hin]; apply in_map_iff in Hin as [[k r'] [Hr Hin]];
    apply filter_In in Hin as [Hin _]; simpl in Hr; subst r'; eauto.
Qed.

Lemma one_class (S : State) (kr : string * Record_) :
  (fingerprint_matches S kr = true /\ key_absent S kr = false
   /\ fingerprint_differs S kr = false)
  \/ (fingerprint_matches S kr = false /\ key_absent S kr = true
      /\ fingerprint_differs S kr = false)
  \/ (fingerprint_matches S kr = false /\ key_absent S kr = false
      /\ fingerprint_differs S kr = true).
Proof.
  unfold fingerprint_matches, key_absent, fingerprint_differs,
    PyDict.contains.
  destruct (PyDict.get S (fst kr)) as [h|]; simpl; auto.
  destruct (String.eqb h (record_hash1 (snd kr))); simpl; auto.
Qed.

Lemma filter_keys_of_dataset (D : Dataset) (p : string * Record_ -> bool) k :
  In k (map fst (filter p (PyDict.items D))) -> PyDict.contains D k = true.
Proof.
  intros Hin. apply in_map_iff in Hin as [kr [Hk Hin]].
  apply filter_In in Hin as [Hin _].
  apply PyDictFacts.contains_true_iff. subst k. now apply in_map.
Qed.

(** Against an empty state everything is new. *)
Lemma diff_by_hash_empty_state (D : Dataset) :
  diff_by_hash D PyDict.empty = (PyDict.values D, []).
Proof.
  rewrite diff_by_hash_pair. unfold PyDict.values, PyDict.items. f_equal.
  - f_equal. induction D as [|kr D IH]; simpl; auto. now rewrite IH.
  - induction D as [|kr D IH]; simpl; auto.
Qed.

(** Against the fingerprints of the dataset itself nothing is left. *)
Lemma diff_by_hash_own_fingerprints (D : Dataset) :
  PyDict.wf D ->
  diff_by_hash D (PyDict.pointwise record_hash1 D) = ([], []).
Proof.
  intros Hwf. rewrite diff_by_hash_pair.
  assert (Hnone : forall (p : string * Record_ -> bool) (l : list (string * Record_)),
             (forall kr, In kr l -> p kr = false) -> filter p l = []).
  { intros p l Hp. induction l as [|a l IH]; simpl; auto.
    rewrite (Hp a) by now left. apply IH. intros; apply Hp. now right. }
  rewrite !Hnone; auto.
  - intros [k r] Hin. unfold fingerprint_differs. simpl.
    rewrite PyDictFacts.get_pointwise.
    rewrite (PyDictFacts.in_get_some D k r Hwf Hin). simpl.
    now rewrite String.eqb_refl.
  - intros [k r] Hin. unfold key_absent, PyDict.contains. simpl.
    rewrite PyDictFacts.get_pointwise.
    now rewrite (PyDictFacts.in_get_some D k r Hwf Hin).
Qed.

(** C1. For every current dataset [D] and prior state [S], [diff_by_hash]
    returns as [to_insert] exactly the records of [D] whose key is absent
    from [S], and as [to_update] exactly those whose key is present in [S]
    with a fingerprint that differs from the freshly computed one, both in
    the order of [D]. Every item of [D] is in exactly one of the three
    classes unchanged, insert, update; a key of [S] that [D] does not have
    is the key of no item in either list. *)
Theorem diff_by_hash_partition (D : Dataset) (S : State) :
  fst (diff_by_hash D S) = map snd (filter (key_absent S) (PyDict.items D))
  /\ snd (diff_by_hash D S)
     = map snd (filter (fingerprint_differs S) (PyDict.items D))
  /\ (forall kr, In kr (PyDict.items D) ->
        (fingerprint_matches S kr = true /\ key_absent S kr = false
         /\ fingerprint_differs S kr = false)
        \/ (fingerprint_matches S kr = false /\ key_absent S kr = true
            /\ fingerprint_differs S kr = false)
        \/ (fingerprint_matches S kr = false /\ key_absent S kr = false
            /\ fingerprint_differs S kr = true))
  /\ (forall k, PyDict.contains S k = true -> PyDict.contains D k = false ->
        ~ In k (map fst (filter (key_absent S) (PyDict.items D)))
        /\ ~ In k (map fst (filter (fingerprint_differs S) (PyDict.items D)))).
Proof.
  split; [apply diff_by_hash_inserts|].
  split; [apply diff_by_hash_updates|].
  split; [intros kr _; apply one_class|].
  intros k _ Hnot.
  split; intros Hin; apply filter_keys_of_dataset in Hin; congruence.
Qed.

(** C2. [record_hash] digests the non-key fields only, sorted by name: two
    records that agree on every field other than the key field have the
    same fingerprint, whatever the order in which their fields were
    inserted and whatever their keys. *)
Theorem record_hash_field_order (r1 r2 : Record_) (key_col : string) :
  PyDict.wf r1 -> PyDict.wf r2 ->
  (forall f, f <> key_col -> PyDict.get r1 f = PyDict.get r2 f) ->
  record_hash r1 key_col = record_hash r2 key_col.
Proof.
  intros H1 H2 Hagree. unfold record_hash.
  rewrite (sorted_fields_permutation (non_key_fields r1 key_col)
             (non_key_fields r2 key_col)); auto.
  - now apply non_key_fields_names.
  - now apply non_key_fields_permutation.
Qed.

End DiffFacts.

(* ===================================================================== *)
(** ** The run *)
(* ===================================================================== *)

Section RunFacts.
Context {P : CdcParams} {B : Builtins}.

Lemma load_state_eq (w : World) :
  _load_state w
  = (Ok (loaded_state w),
     {| state_file := state_file w;
        logged := logged w ++ load_warnings w;
        remote := remote w;
        sink_calls := sink_calls w |}).
Proof.
  unfold _load_state, bind, state_file_exists, try_except, read_state_json,
    loaded_state, load_warnings, ret, log_.
  destruct w as [sf lg rm sc]; simpl.
  destruct sf as [[s|raw]|]; simpl; now rewrite ?app_nil_r.
Qed.

Lemma read_records_app key_col (l1 l2 : list Record_) (D0 : Dataset) :
  read_records key_col (l1 ++ l2) D0
  = match read_records key_col l1 D0 with
    | Ok D1 => read_records key_col l2 D1
    | Raise e => Raise e
    end.
Proof.
  revert D0. induction l1 as [|r l1 IH]; intros D0; simpl; auto.
  destruct (PyDict.get r key_col); auto.
Qed.

Lemma read_records_total key_col (l : list Record_) (D0 : Dataset) :
  (forall r, In r l -> PyDict.contains r key_col = true) ->
  exists D, read_records key_col l D0 = Ok D.
Proof.
  revert D0. induction l as [|r l IH]; intros D0 Hall; simpl; eauto.
  assert (Hr : PyDict.contains r key_col = true) by (apply Hall; now left).
  unfold PyDict.contains in Hr.
  destruct (PyDict.get r key_col); [|discriminate].
  apply IH. intros; apply Hall; now right.
Qed.

Lemma read_records_ok_all key_col (l : list Record_) (D0 D : Dataset) :
  read_records key_col l D0 = Ok D ->
  forall r, In r l -> PyDict.contains r key_col = true.
Proof.
  revert D0. induction l as [|r l IH]; intros D0 Hok x Hin; simpl in *.
  - contradiction.
  - unfold PyDict.contains.
    destruct (PyDict.get r key_col) eqn:E; [|discriminate].
    destruct Hin as [<-|Hin]; [now rewrite E|].
    exact (IH _ Hok x Hin).
Qed.

Lemma read_records_wf key_col (l : list Record_) (D0 D : Dataset) :
  read_records key_col l D0 = Ok D -> PyDict.wf D0 -> PyDict.wf D.
Proof.
  revert D0. induction l as [|r l IH]; intros D0 Hok Hwf; simpl in *.
  - now injection Hok as <-.
  - destruct (PyDict.get r key_col); [|discriminate].
    eapply IH; eauto. now apply PyDictFacts.wf_set.
Qed.

(** The first row without the key column stops the loop. *)
Lemma read_records_missing key_col (pre post : list Record_) (bad : Record_)
  (D0 : Dataset) :
  (forall r, In r pre -> PyDict.contains r key_col = true) ->
  PyDict.contains bad key_col = false ->
  read_records key_col (pre ++ bad :: post) D0
  = Raise (KeyError (missing_key_message key_col bad)).
Proof.
  intros Hpre Hbad. rewrite read_records_app.
  destruct (read_records_total key_col pre D0 Hpre) as [D1 ->]. simpl.
  unfold PyDict.contains in Hbad.
  destruct (PyDict.get bad key_col); [discriminate | reflexivity].
Qed.

Lemma first_without_key key_col (l : list Record_) :
  (exists r, In r l /\ PyDict.contains r key_col = false) ->
  exists pre bad post,
    l = pre ++ bad :: post
    /\ (forall r, In r pre -> PyDict.contains r key_col = true)
    /\ PyDict.contains bad key_col = false.
Proof.
  induction l as [|a l IH]; intros [r [Hin Hr]]; [contradiction|].
  destruct (PyDict.contains a key_col) eqn:Ea.
  - destruct Hin as [->|Hin]; [congruence|].
    destruct IH as [pre [bad [post [-> [Hpre Hbad]]]]]; [eauto|].
    exists (a :: pre), bad, post.
    split; [reflexivity|]. split; [|exact Hbad].
    intros x [<-|Hx]; auto.
  - exists [], a, l. repeat split; auto.
Qed.

Lemma in_set_inv {V : Type} (d : PyDict.t V) k v k' v' :
  In (k', v') (PyDict.set d k v) ->
  (k' = k /\ v' = v) \/ In (k', v') d.
Proof.
  induction d as [|[k0 v0] d IH]; simpl.
  - intros [[= <- <-]|[]]. now left.
  - destruct (String.eqb k0 k) eqn:E; simpl.
    + apply String.eqb_eq in E. subst k0.
      intros [[= <- <-]|Hin]; auto.
    + intros [Heq|Hin]; auto. destruct (IH Hin); auto.
Qed.

Lemma read_records_filed key_col (l src : list Record_) (D0 D : Dataset) :
  read_records key_col l D0 = Ok D ->
  incl l src -> filed_by_key key_col src D0 -> filed_by_key key_col src D.
Proof.
  revert D0. induction l as [|r l IH]; intros D0 Hok Hincl Hinv; simpl in *.
  - now injection Hok as <-.
  - destruct (PyDict.get r key_col) as [v|] eqn:E; [|discriminate].
    eapply IH; eauto.
    + intros x Hx. apply Hincl. now right.
    + intros k' r' Hin. apply in_set_inv in Hin as [[-> ->]|Hin].
      * split; [apply Hincl; now left|]. unfold key_of. now rewrite E.
      * now apply Hinv.
Qed.

Lemma read_records_keeps_other key_col (l : list Record_) (D0 D : Dataset) k :
  read_records key_col l D0 = Ok D ->
  (forall r, In r l -> key_of key_col r <> Some k) ->
  PyDict.get D k = PyDict.get D0 k.
Proof.
  revert D0. induction l as [|r l IH]; intros D0 Hok Hne; simpl in *.
  - now injection Hok as <-.
  - destruct (PyDict.get r key_col) as [v|] eqn:E; [|discriminate].
    rewrite (IH _ Hok) by (intros; apply Hne; now right).
    apply PyDictFacts.get_set_other.
    intros Heq. apply (Hne r); [now left|].
    unfold key_of. rewrite E. simpl. now rewrite Heq.
Qed.

(** The row read last under a key is the one the dataset holds. *)
Lemma read_records_last key_col (pre post : list Record_) (r : Record_)
  (D : Dataset) k :
  read_records key_col (pre ++ r :: post) PyDict.empty = Ok D ->
  key_of key_col r = Some k ->
  (forall x, In x post -> key_of key_col x <> Some k) ->
  PyDict.get D k = Some r.
Proof.
  intros Hok Hk Hpost. rewrite read_records_app in Hok.
  destruct (read_records key_col pre PyDict.empty) as [D1|e]; [|discriminate].
  simpl in Hok. unfold key_of in Hk.
  destruct (PyDict.get r key_col) as [v|]; [|discriminate].
  injection Hk as Hk. subst k.
  rewrite (read_records_keeps_other _ _ _ _ _ Hok Hpost).
  apply PyDictFacts.get_set_same.
Qed.

(** A run whose source reads through: what it returns and what it leaves. *)
Lemma run_with_eq (self : SyncManager) (src : list Record_) (sink : Sink)
  (w : World) (D : Dataset) :
  read_records (key_col self) src PyDict.empty = Ok D ->
  run_with self src sink w
  = let to_insert := fst (diff_by_hash D (loaded_state w)) in
    let to_update := snd (diff_by_hash D (loaded_state w)) in
    let o := upsert sink to_insert to_update (remote w) in
    let lg := ((logged w ++ load_warnings w)
               ++ [detected_entry to_insert to_update]) ++ so_logged o in
    match so_raised o with
    | Some e =>
        (Raise e,
         {| state_file := state_file w; logged := lg;
            remote := so_remote o;
            sink_calls := sink_calls w ++ [(to_insert, to_update)] |})
    | None =>
        (Ok tt,
         {| state_file :=
              Some (JsonObject (PyDict.comprehension record_hash1 D));
            logged := lg ++ [completed_entry];
            remote := so_remote o;
            sink_calls := sink_calls w ++ [(to_insert, to_update)] |})
    end.
Proof.
  intros Hread. unfold run_with. rewrite Hread.
  unfold bind at 1. unfold lift at 1.
  unfold bind at 1. rewrite load_state_eq.
  unfold bind, log_, call_upsert, _save_state, write_state_json; simpl.
  destruct (so_raised _); reflexivity.
Qed.

Lemma run_with_read_fails (self : SyncManager) (src : list Record_)
  (sink : Sink) (w : World) (e : Exn) :
  read_records (key_col self) src PyDict.empty = Raise e ->
  run_with self src sink w = (Raise e, w).
Proof.
  intros Hread. unfold run_with. rewrite Hread. reflexivity.
Qed.

End RunFacts.

(* ===================================================================== *)
(** ** The run: state, failures, duplicates *)
(* ===================================================================== *)

Section RunClaims.
Context {P : CdcParams} {B : Builtins}.

Lemma dataset_wf key_col (src : list Record_) (D : Dataset) :
  read_records key_col src PyDict.empty = Ok D -> PyDict.wf D.
Proof.
  intros Hok. eapply read_records_wf; eauto. apply PyDictFacts.wf_empty.
Qed.

Lemma dataset_filed key_col (src : list Record_) (D : Dataset) :
  read_records key_col src PyDict.empty = Ok D -> filed_by_key key_col src D.
Proof.
  intros Hok. eapply read_records_filed; eauto.
  - apply incl_refl.
  - intros k r [].
Qed.

Lemma new_hashes_pointwise key_col (src : list Record_) (D : Dataset) :
  read_records key_col src PyDict.empty = Ok D ->
  PyDict.comprehension record_hash1 D = PyDict.pointwise record_hash1 D.
Proof.
  intros Hok. apply PyDictFacts.comprehension_pointwise.
  eapply dataset_wf; eauto.
Qed.

(** A run that completes read its source through and saved the
    fingerprints of what it read. *)
Lemma run_with_ok_inv (self : SyncManager) (src : list Record_) (sink : Sink)
  (w w1 : World) :
  run_with self src sink w = (Ok tt, w1) ->
  exists D,
    read_records (key_col self) src PyDict.empty = Ok D
    /\ state_file w1 = Some (JsonObject (PyDict.pointwise record_hash1 D))
    /\ sink_calls w1 = sink_calls w ++ [diff_by_hash D (loaded_state w)].
Proof.
  intros Hrun.
  destruct (read_records (key_col self) src PyDict.empty) as [D|e] eqn:Hread.
  - exists D. split; auto.
    rewrite (run_with_eq _ _ _ _ _ Hread) in Hrun. cbv zeta in Hrun.
    destruct (so_raised _); [discriminate|].
    injection Hrun as <-. simpl.
    rewrite (new_hashes_pointwise _ _ _ Hread).
    split; auto. now destruct (diff_by_hash D (loaded_state w)).
  - rewrite (run_with_read_fails _ _ _ _ _ Hread) in Hrun. discriminate.
Qed.

Lemma loaded_state_after_load (w : World) (S0 : State) :
  fst (_load_state w) = Ok S0 -> S0 = loaded_state w.
Proof. rewrite load_state_eq. simpl. congruence. Qed.

(** What the next run sends to its sink. *)
Lemma run_with_sink_calls (self : SyncManager) (src : list Record_)
  (sink : Sink) (w : World) (D : Dataset) :
  read_records (key_col self) src PyDict.empty = Ok D ->
  sink_calls (snd (run_with self src sink w))
  = sink_calls w ++ [diff_by_hash D (loaded_state w)].
Proof.
  intros Hread. rewrite (run_with_eq _ _ _ _ _ Hread). cbv zeta.
  destruct (diff_by_hash D (loaded_state w)) as [ins upd]. simpl.
  destruct (so_raised _); reflexivity.
Qed.

(** C3. If a run over a dataset completes, and so saves its state, then a
    second diff of the same dataset against the state that was saved has
    nothing to insert and nothing to update; a second run over the same
    source hands its sink two empty lists. *)
Theorem run_twice_no_deltas (self : SyncManager) (src : list Record_)
  (sink sink' : Sink) (w w1 : World) :
  run_with self src sink w = (Ok tt, w1) ->
  exists D S1,
    read_records (key_col self) src PyDict.empty = Ok D
    /\ fst (_load_state w1) = Ok S1
    /\ diff_by_hash D S1 = ([], [])
    /\ sink_calls (snd (run_with self src sink' w1))
       = sink_calls w1 ++ [([], [])].
Proof.
  intros Hrun. destruct (run_with_ok_inv _ _ _ _ _ Hrun) as [D [Hread [Hsf _]]].
  assert (Hls : loaded_state w1 = PyDict.pointwise record_hash1 D).
  { unfold loaded_state. now rewrite Hsf. }
  assert (Hdiff : diff_by_hash D (loaded_state w1) = ([], [])).
  { rewrite Hls. apply diff_by_hash_own_fingerprints.
    eapply dataset_wf; eauto. }
  exists D, (loaded_state w1). split; [exact Hread|].
  split; [now rewrite load_state_eq|].
  split; [exact Hdiff|].
  now rewrite (run_with_sink_calls _ _ _ _ _ Hread), Hdiff.
Qed.

(** C5. If a record of the source lacks the configured key column, the run
    raises a [KeyError] whose message renders the first such record, and
    leaves the world as it found it: no call to the sink was made, nothing
    was logged, the state file was not touched. *)
Theorem run_missing_key_fails_first (self : SyncManager)
  (src : list Record_) (sink : Sink) (w : World) :
  (exists r, In r src /\ PyDict.contains r (key_col self) = false) ->
  exists pre bad post,
    src = pre ++ bad :: post
    /\ (forall r, In r pre -> PyDict.contains r (key_col self) = true)
    /\ PyDict.contains bad (key_col self) = false
    /\ run_with self src sink w
       = (Raise (KeyError ("Missing key_column '" ++ key_col self
                           ++ "' in record: " ++ repr_dict bad)), w).
Proof.
  intros Hex.
  destruct (first_without_key _ _ Hex) as [pre [bad [post [-> [Hpre Hbad]]]]].
  exists pre, bad, post. repeat split; auto.
  apply run_with_read_fails. now apply read_records_missing.
Qed.

(** C6. When the state file does not exist, or holds text that does not
    parse, [_load_state] returns the empty mapping and does not raise; in
    the first case it leaves the world as it is, in the second it logs one
    warning. On that run every record of the current dataset goes to
    [to_insert] and none to [to_update]. *)
Theorem load_state_recovers (w : World) :
  state_file w = None \/ (exists raw, state_file w = Some (Unparsable raw)) ->
  fst (_load_state w) = Ok PyDict.empty
  /\ (state_file w = None -> snd (_load_state w) = w)
  /\ (forall raw, state_file w = Some (Unparsable raw) ->
        snd (_load_state w)
        = {| state_file := state_file w;
             logged := logged w
                       ++ [{| level := WARNING;
                              message := "State file corrupt; starting fresh." |}];
             remote := remote w;
             sink_calls := sink_calls w |})
  /\ (forall (self : SyncManager) (src : list Record_) (sink : Sink)
             (D : Dataset),
        read_records (key_col self) src PyDict.empty = Ok D ->
        sink_calls (snd (run_with self src sink w))
        = sink_calls w ++ [(PyDict.values D, [])]).
Proof.
  intros Hw.
  assert (Hls : loaded_state w = PyDict.empty).
  { unfold loaded_state. destruct Hw as [->|[raw ->]]; reflexivity. }
  rewrite load_state_eq. simpl. rewrite Hls.
  split; [reflexivity|]. split; [|split].
  - intros Hnone. unfold load_warnings. rewrite Hnone.
    destruct w; simpl in *. now rewrite app_nil_r, Hnone.
  - intros raw Hraw. unfold load_warnings. now rewrite Hraw.
  - intros self src sink D Hread.
    rewrite (run_with_sink_calls _ _ _ _ _ Hread), Hls.
    now rewrite diff_by_hash_empty_state.
Qed.

(** C7, as amended. After a run that completes, the state file holds one
    mapping, with exactly the keys of the current dataset, in its order,
    each mapped to the fingerprint of its record. Nothing of the previous
    state is merged in: a key that the current dataset lacks is absent
    from the new state, whether or not the previous state had it. The
    replacement is whole; it is not atomic, since [write_text] empties the
    file before it writes. *)
Theorem run_replaces_state (self : SyncManager) (src : list Record_)
  (sink : Sink) (w w1 : World) :
  run_with self src sink w = (Ok tt, w1) ->
  exists D S1,
    read_records (key_col self) src PyDict.empty = Ok D
    /\ state_file w1 = Some (JsonObject S1)
    /\ PyDict.keys S1 = PyDict.keys D
    /\ (forall k, PyDict.get S1 k
                  = option_map record_hash1 (PyDict.get D k))
    /\ (forall S0 k, fst (_load_state w) = Ok S0 ->
          PyDict.contains S0 k = true -> PyDict.contains D k = false ->
          PyDict.contains S1 k = false).
Proof.
  intros Hrun. destruct (run_with_ok_inv _ _ _ _ _ Hrun) as [D [Hread [Hsf _]]].
  exists D, (PyDict.pointwise record_hash1 D).
  split; [exact Hread|]. split; [exact Hsf|].
  split; [apply PyDictFacts.keys_pointwise|].
  split; [apply PyDictFacts.get_pointwise|].
  intros S0 k _ _ Hnot. unfold PyDict.contains in *.
  rewrite PyDictFacts.get_pointwise. now destruct (PyDict.get D k).
Qed.

(** C8. If the call to the sink raises, the run fails with that exception
    and the state file is as it was before the run; the next run over the
    same source therefore computes the same two lists and hands them to
    its sink again. *)
Theorem sink_failure_keeps_state (self : SyncManager) (src : list Record_)
  (sink : Sink) (w : World) (D : Dataset) (S0 : State) (e : Exn) :
  read_records (key_col self) src PyDict.empty = Ok D ->
  fst (_load_state w) = Ok S0 ->
  so_raised (upsert sink (fst (diff_by_hash D S0)) (snd (diff_by_hash D S0))
               (remote w)) = Some e ->
  fst (run_with self src sink w) = Raise e
  /\ state_file (snd (run_with self src sink w)) = state_file w
  /\ sink_calls (snd (run_with self src sink w))
     = sink_calls w ++ [diff_by_hash D S0]
  /\ (forall sink',
        sink_calls (snd (run_with self src sink'
                           (snd (run_with self src sink w))))
        = sink_calls w ++ [diff_by_hash D S0; diff_by_hash D S0]).
Proof.
  intros Hread Hload Hraise.
  apply loaded_state_after_load in Hload. subst S0.
  assert (Hsf : state_file (snd (run_with self src sink w)) = state_file w).
  { rewrite (run_with_eq _ _ _ _ _ Hread). cbv zeta. now rewrite Hraise. }
  split; [|split; [exact Hsf|split]].
  - rewrite (run_with_eq _ _ _ _ _ Hread). cbv zeta. now rewrite Hraise.
  - apply (run_with_sink_calls _ _ _ _ _ Hread).
  - intros sink'.
    assert (Hls : loaded_state (snd (run_with self src sink w))
                  = loaded_state w).
    { unfold loaded_state. now rewrite Hsf. }
    rewrite (run_with_sink_calls _ _ sink' _ _ Hread), Hls.
    rewrite (run_with_sink_calls _ _ sink _ _ Hread).
    now rewrite <- app_assoc.
Qed.

End RunClaims.

Section DuplicateKeys.
Context {P : CdcParams} {B : Builtins}.

Lemma arcgis_sink_never_raises (dry : bool) (ins upd : list Record_)
  (r : Remote) :
  so_raised (upsert (ArcGisOnlineSink dry) ins upd r) = None
  /\ so_remote (upsert (ArcGisOnlineSink dry) ins upd r) = r.
Proof. destruct dry; split; reflexivity. Qed.

(** With the sink of the repository a run whose source reads through
    completes. *)
Lemma run_completes (self : SyncManager) (src : list Record_) (w : World)
  (D : Dataset) :
  read_records (key_col self) src PyDict.empty = Ok D ->
  fst (run self src w) = Ok tt
  /\ state_file (snd (run self src w))
     = Some (JsonObject (PyDict.pointwise record_hash1 D))
  /\ remote (snd (run self src w)) = remote w
  /\ sink_calls (snd (run self src w))
     = sink_calls w ++ [diff_by_hash D (loaded_state w)].
Proof.
  intros Hread. unfold run.
  split; [|split; [|split]].
  - rewrite (run_with_eq _ _ _ _ _ Hread). cbv zeta.
    now rewrite (proj1 (arcgis_sink_never_raises _ _ _ _)).
  - rewrite (run_with_eq _ _ _ _ _ Hread). cbv zeta.
    rewrite (proj1 (arcgis_sink_never_raises _ _ _ _)). simpl.
    now rewrite (new_hashes_pointwise _ _ _ Hread).
  - rewrite (run_with_eq _ _ _ _ _ Hread). cbv zeta.
    rewrite (proj1 (arcgis_sink_never_raises _ _ _ _)). simpl.
    apply arcgis_sink_never_raises.
  - apply (run_with_sink_calls _ _ _ _ _ Hread).
Qed.

(** C10. [run] files each record under the string of its key value. When
    two records of the source have keys with the same string [k], and [r]
    is the last record read under [k], the run completes without a word
    about the earlier one; the new state maps [k] to the fingerprint of
    [r]; [r] is the record that is diffed under [k] (inserted when the
    previous state lacks [k], updated when it holds another fingerprint);
    and any record under [k] among those sent to the sink is [r], so an
    earlier record that differs from [r] is not sent. *)
Theorem run_last_record_wins (self : SyncManager) (w : World)
  (pre mid post : list Record_) (r0 r : Record_) (k : string) :
  let src := pre ++ r0 :: mid ++ r :: post in
  (forall x, In x src -> PyDict.contains x (key_col self) = true) ->
  key_of (key_col self) r0 = Some k ->
  key_of (key_col self) r = Some k ->
  (forall x, In x post -> key_of (key_col self) x <> Some k) ->
  fst (run self src w) = Ok tt
  /\ exists to_insert to_update S0 S1,
       sink_calls (snd (run self src w))
       = sink_calls w ++ [(to_insert, to_update)]
       /\ fst (_load_state w) = Ok S0
       /\ state_file (snd (run self src w)) = Some (JsonObject S1)
       /\ PyDict.get S1 k = Some (record_hash1 r)
       /\ (PyDict.get S0 k = None -> In r to_insert)
       /\ (forall h, PyDict.get S0 k = Some h -> h <> record_hash1 r ->
                     In r to_update)
       /\ (forall x, In x (to_insert ++ to_update) ->
                     key_of (key_col self) x = Some k -> x = r)
       /\ (r0 <> r -> ~ In r0 (to_insert ++ to_update)).
Proof.
  intros src Hall Hk0 Hk Hpost.
  destruct (read_records_total (key_col self) src PyDict.empty Hall)
    as [D Hread].
  destruct (run_completes self src w D Hread) as [Hok [Hsf [_ Hcalls]]].
  split; [exact Hok|].
  assert (Hwf : PyDict.wf D) by (eapply dataset_wf; eauto).
  assert (Hfiled := dataset_filed _ _ _ Hread).
  assert (HDk : PyDict.get D k = Some r).
  { apply (read_records_last (key_col self) (pre ++ r0 :: mid) post); auto.
    unfold src in Hread. now rewrite <- app_assoc, <- app_comm_cons. }
  assert (Hin : In (k, r) (PyDict.items D))
    by now apply PyDictFacts.get_some_in.
  assert (Honly : forall x,
             In x (fst (diff_by_hash D (loaded_state w))
                   ++ snd (diff_by_hash D (loaded_state w))) ->
             key_of (key_col self) x = Some k -> x = r).
  { intros x Hx Hkx.
    destruct (diff_by_hash_from_dataset _ _ _ Hx) as [k' Hk'].
    destruct (Hfiled _ _ Hk') as [_ Hkey].
    assert (k' = k) by congruence. subst k'.
    apply (PyDictFacts.in_get_some _ _ _ Hwf) in Hk'. congruence. }
  exists (fst (diff_by_hash D (loaded_state w))),
         (snd (diff_by_hash D (loaded_state w))),
         (loaded_state w), (PyDict.pointwise record_hash1 D).
  split; [now rewrite Hcalls; destruct (diff_by_hash D (loaded_state w))|].
  split; [now rewrite load_state_eq|].
  split; [exact Hsf|].
  split; [now rewrite PyDictFacts.get_pointwise, HDk|].
  split; [|split; [|split; [exact Honly|]]].
  - intros Hnone. rewrite diff_by_hash_inserts.
    apply in_map_iff. exists (k, r). split; auto.
    apply filter_In. split; auto.
    unfold key_absent, PyDict.contains. simpl. now rewrite Hnone.
  - intros h Hsome Hne. rewrite diff_by_hash_updates.
    apply in_map_iff. exists (k, r). split; auto.
    apply filter_In. split; auto.
    unfold fingerprint_differs. simpl. rewrite Hsome.
    apply negb_true_iff, String.eqb_neq. exact Hne.
  - intros Hne Hin0. apply Hne. now apply Honly.
Qed.

(** X3. A dry run is a run like any other as far as the state file goes:
    whenever its source reads through, it completes, leaves the hosted
    layer as it was, and replaces the state file by the fingerprints of the
    current dataset. *)
Theorem dry_run_writes_state (self : SyncManager) (src : list Record_)
  (w : World) (D : Dataset) :
  dry_run self = true ->
  read_records (key_col self) src PyDict.empty = Ok D ->
  fst (run self src w) = Ok tt
  /\ remote (snd (run self src w)) = remote w
  /\ state_file (snd (run self src w))
     = Some (JsonObject (PyDict.pointwise record_hash1 D)).
Proof.
  intros _ Hread.
  destruct (run_completes self src w D Hread) as [Hok [Hsf [Hrem _]]].
  auto.
Qed.

End DuplicateKeys.

(* ===================================================================== *)
(** ** The run: what completes, what is delivered, in which order *)
(* ===================================================================== *)

Section RunMore.
Context {P : CdcParams} {B : Builtins}.

(** X10. A source that yields no record is no error: the run completes,
    hands its sink two empty lists, and replaces the state file by the
    empty mapping, whatever the previous state held. *)
Theorem run_empty_source (self : SyncManager) (w : World) :
  fst (run self [] w) = Ok tt
  /\ sink_calls (snd (run self [] w)) = sink_calls w ++ [([], [])]
  /\ state_file (snd (run self [] w)) = Some (JsonObject PyDict.empty)
  /\ remote (snd (run self [] w)) = remote w.
Proof.
  destruct (run_completes self [] w PyDict.empty eq_refl)
    as [Hok [Hsf [Hrem Hcalls]]].
  repeat split; auto.
Qed.

(** X11. A run without [dry_run] delivers nothing either: when its source
    reads through it completes, the hosted layer is as it was, the log
    holds the warning that the sink is a stub, and the state file records
    the current dataset as synchronised. *)
Theorem real_run_delivers_nothing (self : SyncManager) (src : list Record_)
  (w : World) (D : Dataset) :
  dry_run self = false ->
  read_records (key_col self) src PyDict.empty = Ok D ->
  fst (run self src w) = Ok tt
  /\ remote (snd (run self src w)) = remote w
  /\ In stub_warning (logged (snd (run self src w)))
  /\ state_file (snd (run self src w))
     = Some (JsonObject (PyDict.pointwise record_hash1 D)).
Proof.
  intros Hdry Hread.
  destruct (run_completes self src w D Hread) as [Hok [Hsf [Hrem _]]].
  repeat split; auto.
  unfold run. rewrite (run_with_eq _ _ _ _ _ Hread). cbv zeta.
  rewrite Hdry. simpl.
  apply in_or_app. left. apply in_or_app. right. now left.
Qed.

Lemma filter_filter_and {A : Type} (p q : A -> bool) (l : list A) :
  filter p (filter q l) = filter (fun x => p x && q x) l.
Proof.
  induction l as [|a l IH]; simpl; auto.
  destruct (q a); simpl; rewrite ?andb_true_r, ?andb_false_r.
  - destruct (p a); now rewrite IH.
  - exact IH.
Qed.

Lemma contains_set (D : Dataset) k k' (r : Record_) :
  PyDict.contains (PyDict.set D k r) k'
  = (String.eqb k k' || PyDict.contains D k').
Proof.
  unfold PyDict.contains.
  destruct (String.eqb k k') eqn:E.
  - apply String.eqb_eq in E. subst k'.
    now rewrite PyDictFacts.get_set_same.
  - apply String.eqb_neq in E. now rewrite PyDictFacts.get_set_other.
Qed.

Lemma keys_set (D : Dataset) k (r : Record_) :
  PyDict.keys (PyDict.set D k r)
  = PyDict.keys D ++ (if PyDict.contains D k then [] else [k]).
Proof.
  destruct (PyDict.contains D k) eqn:E.
  - apply PyDictFacts.contains_true_iff in E.
    now rewrite PyDictFacts.keys_set_present, app_nil_r.
  - apply PyDictFacts.contains_false_iff in E.
    rewrite PyDictFacts.set_absent by assumption.
    unfold PyDict.keys. now rewrite map_app.
Qed.

(** The keys of the dataset: those it had, then the new ones in the order
    of their first rows. *)
Lemma read_records_keys key_col (l : list Record_) (D0 D : Dataset) :
  read_records key_col l D0 = Ok D ->
  PyDict.keys D
  = PyDict.keys D0
    ++ filter (fun k => negb (PyDict.contains D0 k))
         (first_occurrences (key_strings key_col l)).
Proof.
  revert D0. induction l as [|r l IH]; intros D0 Hok; simpl in *.
  - injection Hok as <-. now rewrite app_nil_r.
  - unfold key_of at 1.
    destruct (PyDict.get r key_col) as [v|] eqn:E; [|discriminate].
    cbn [option_map app first_occurrences filter].
    rewrite (IH _ Hok), keys_set, <- app_assoc. f_equal.
    rewrite filter_filter_and.
    destruct (PyDict.contains D0 (py_str v)) eqn:Ec; cbn [negb app].
    + apply filter_ext. intros k. rewrite contains_set.
      destruct (String.eqb (py_str v) k) eqn:Ek; simpl.
      * apply String.eqb_eq in Ek. subst k. now rewrite Ec.
      * now rewrite andb_true_r.
    + f_equal. apply filter_ext. intros k. rewrite contains_set.
      destruct (String.eqb (py_str v) k); simpl.
      * now rewrite andb_false_r.
      * now rewrite andb_true_r.
Qed.

Lemma filter_all {A : Type} (l : list A) : filter (fun _ => true) l = l.
Proof. induction l as [|a l IH]; simpl; congruence. Qed.

(** X12. The keys of the state that a completed run saves are the distinct
    key strings of the source, each at the place of its first row, even
    though the fingerprint kept under a key is that of its last row. *)
Theorem run_saves_keys_in_first_seen_order (self : SyncManager)
  (src : list Record_) (w : World) :
  fst (run self src w) = Ok tt ->
  exists S1,
    state_file (snd (run self src w)) = Some (JsonObject S1)
    /\ PyDict.keys S1
       = first_occurrences (key_strings (key_col self) src).
Proof.
  intros Hok.
  destruct (read_records (key_col self) src PyDict.empty) as [D|e] eqn:Hread.
  - destruct (run_completes self src w D Hread) as [_ [Hsf _]].
    exists (PyDict.pointwise record_hash1 D). split; [exact Hsf|].
    rewrite PyDictFacts.keys_pointwise, (read_records_keys _ _ _ _ Hread).
    simpl. apply filter_all.
  - unfold run in Hok.
    rewrite (run_with_read_fails _ _ _ _ _ Hread) in Hok. discriminate.
Qed.

End RunMore.

(* ===================================================================== *)
(** ** Batch upload *)
(* ===================================================================== *)

Module SpatialEtlFacts.
Import SpatialEtl.

Section Chunks.
Variable Row : Type.
Variable sdf : list Row.
Variable batch_size : Z.
Hypothesis batch_size_pos : (0 < batch_size)%Z.

Local Abbreviation n := (length sdf).
Local Abbreviation s := (Z.to_nat batch_size).

Lemma step_pos : 1 <= s.
Proof. lia. Qed.

Lemma stop_eq (start : nat) :
  Nat.min (Z.to_nat (Z.of_nat start + batch_size)) n = Nat.min (start + s) n.
Proof. f_equal. lia. Qed.

Lemma slice_eq (start : nat) :
  iloc Row sdf start (Nat.min (start + s) n)
  = firstn s (skipn start sdf).
Proof.
  unfold iloc.
  destruct (Nat.le_gt_cases (start + s) n) as [Hle|Hgt].
  - f_equal. lia.
  - replace (Nat.min (start + s) n - start) with (n - start) by lia.
    rewrite !firstn_all2; auto; rewrite length_skipn; lia.
Qed.

Lemma slice_length (start : nat) :
  length (iloc Row sdf start (Nat.min (start + s) n)) = Nat.min s (n - start).
Proof.
  rewrite slice_eq, length_firstn, length_skipn. reflexivity.
Qed.

Lemma slices_eq (starts : list nat) :
  slices Row sdf batch_size starts
  = map (fun start => firstn s (skipn start sdf)) starts.
Proof.
  unfold slices. apply map_ext. intros start.
  now rewrite stop_eq, slice_eq.
Qed.

(** The slices, one after the other, are the data frame. *)
Lemma slices_concat (fuel start : nat) :
  n - start <= fuel ->
  concat (map (fun st => firstn s (skipn st sdf)) (range_from fuel start n s))
  = skipn start sdf.
Proof.
  revert start. induction fuel as [|fuel IH]; intros start Hfuel; simpl.
  - symmetry. apply skipn_all2. lia.
  - destruct (Nat.ltb start n) eqn:E.
    + apply Nat.ltb_lt in E. simpl.
      rewrite IH by (pose proof step_pos; lia).
      replace (start + s) with (s + start) by lia.
      rewrite <- skipn_skipn. apply firstn_skipn.
    + apply Nat.ltb_ge in E. symmetry. apply skipn_all2. lia.
Qed.

Lemma range_from_lt (fuel start st : nat) :
  In st (range_from fuel start n s) -> st < n.
Proof.
  revert start. induction fuel as [|fuel IH]; intros start; simpl; [tauto|].
  destruct (Nat.ltb start n) eqn:E; [|intros []].
  apply Nat.ltb_lt in E. intros [<-|Hin]; eauto.
Qed.

(** No slice is empty and none is longer than the batch size. *)
Lemma slices_bounds (fuel start : nat) (c : list Row) :
  In c (map (fun st => firstn s (skipn st sdf)) (range_from fuel start n s)) ->
  1 <= length c <= s.
Proof.
  intros Hin. apply in_map_iff in Hin as [st [<- Hst]].
  apply range_from_lt in Hst.
  rewrite length_firstn, length_skipn. pose proof step_pos. lia.
Qed.

(** Every slice but the last is full. *)
Lemma slices_full (fuel start : nat) :
  Forall (fun c => length c = s)
    (removelast
       (map (fun st => firstn s (skipn st sdf)) (range_from fuel start n s))).
Proof.
  revert start. induction fuel as [|fuel IH]; intros start; simpl.
  - constructor.
  - destruct (Nat.ltb start n) eqn:E; [|constructor].
    specialize (IH (start + s)). cbn [map].
    destruct fuel as [|fuel']; [constructor|].
    cbn [range_from] in *.
    destruct (Nat.ltb (start + s) n) eqn:E'; [|constructor].
    cbn [map removelast] in *. 
    apply Nat.ltb_lt in E'.
    constructor; [|exact IH].
    rewrite length_firstn, length_skipn. lia.
Qed.

End Chunks.

Section Loop.
Context {SR : StrRepr}.
Variables Row FeatureSet Err L : Type.
Variable to_fs : list Row -> list string -> FeatureSet.
Variable platform : L -> FeatureSet -> EditResult Err * L.
Variable err_str : option Err -> string.

(** One turn of the loop against a platform that answers. *)
Lemma batch_loop_cons (start : nat) (rest : list nat) (sdf : list Row)
  (keep_cols : list string) (batch_size : Z)
  (acc : nat * list (option Err)) (p : Platform L FeatureSet) :
  let fs :=
    to_fs (iloc Row sdf start
             (Nat.min (Z.to_nat (Z.of_nat start + batch_size)) (length sdf)))
          (keep_cols ++ ["SHAPE"]) in
  let res := fst (platform (layer p) fs) in
  exists total,
    batch_loop Row FeatureSet Err L (built Row FeatureSet to_fs)
      (answering FeatureSet Err L platform) (start :: rest) sdf keep_cols
      batch_size acc p
    = batch_loop Row FeatureSet Err L (built Row FeatureSet to_fs)
        (answering FeatureSet Err L platform) rest sdf keep_cols batch_size
        (total, snd acc ++ rejected Err res)
        {| layer := snd (platform (layer p) fs); calls := calls p ++ [fs] |}.
Proof.
  intros fs res.
  exists (fst acc
          + length (filter (fun r => success r)
                      (match addResults res with
                       | Some rs => rs
                       | None => []
                       end))).
  cbn [batch_loop]. unfold bind, lift, build_featureset, built,
    call_edit_features, answering.
  fold fs. fold res. unfold rejected.
  destruct (map _ (filter (fun r => negb (success r)) _)) eqn:El.
  - now rewrite app_nil_r.
  - reflexivity.
Qed.

(** The loop calls the platform once per start, whatever the answers, and
    gathers the errors of all of them. *)
Lemma batch_loop_answering (starts : list nat) (sdf : list Row)
  (keep_cols : list string) (batch_size : Z)
  (acc : nat * list (option Err)) (p : Platform L FeatureSet) :
  let fss := feature_sets Row FeatureSet to_fs sdf keep_cols batch_size starts in
  exists total,
    batch_loop Row FeatureSet Err L (built Row FeatureSet to_fs)
      (answering FeatureSet Err L platform) starts sdf keep_cols batch_size
      acc p
    = (Ok (total,
           snd acc
           ++ failed_errors Err (fst (replay FeatureSet Err L platform
                                        (layer p) fss))),
       {| layer := snd (replay FeatureSet Err L platform (layer p) fss);
          calls := calls p ++ fss |}).
Proof.
  revert acc p. induction starts as [|start rest IH]; intros acc p.
  - exists (fst acc). simpl. unfold ret. rewrite !app_nil_r.
    destruct acc, p; reflexivity.
  - destruct (batch_loop_cons start rest sdf keep_cols batch_size acc p)
      as [total0 Hstep].
    cbv zeta in Hstep. rewrite Hstep.
    match goal with
    | |- context [batch_loop _ _ _ _ _ _ rest sdf keep_cols batch_size ?a ?q] =>
        destruct (IH a q) as [total Heq]
    end.
    exists total. cbv zeta in Heq. rewrite Heq.
    cbn [fst snd layer calls]. unfold feature_sets, slices.
    cbn [map replay fst snd]. unfold failed_errors. cbn [flat_map].
    now rewrite <- !app_assoc.
Qed.

(** With a positive batch size the data frame goes to the platform slice by
    slice, all of it, and the errors of all slices decide the outcome. *)
Lemma append_batches_answering (sdf : list Row) (keep_cols : list string)
  (batch_size : Z) (p : Platform L FeatureSet) :
  (0 < batch_size)%Z ->
  let chunks :=
    slices Row sdf batch_size
      (range_from (length sdf) 0 (length sdf) (Z.to_nat batch_size)) in
  let fss := map (fun c => to_fs c (keep_cols ++ ["SHAPE"])) chunks in
  let errors :=
    failed_errors Err (fst (replay FeatureSet Err L platform (layer p) fss)) in
  append_batches Row FeatureSet Err L (built Row FeatureSet to_fs)
    (answering FeatureSet Err L platform) err_str sdf keep_cols batch_size p
  = (match errors with
     | [] => Ok tt
     | first :: _ =>
         Raise (RuntimeError
                  ("Failed during batch appending: "
                   ++ fmt_d (length errors)
                   ++ " adds failed. First error: " ++ err_str first))
     end,
     {| layer := snd (replay FeatureSet Err L platform (layer p) fss);
        calls := calls p ++ fss |}).
Proof.
  intros Hpos. cbv zeta.
  unfold append_batches, try_except.
  unfold bind at 1. unfold lift, py_range0.
  replace (batch_size =? 0)%Z with false by (symmetry; apply Z.eqb_neq; lia).
  replace (batch_size <? 0)%Z with false by (symmetry; apply Z.ltb_ge; lia).
  unfold bind.
  destruct (batch_loop_answering
              (range_from (length sdf) 0 (length sdf) (Z.to_nat batch_size))
              sdf keep_cols batch_size (O, []) p) as [total Heq].
  cbv zeta in Heq. rewrite Heq. cbn [fst snd app]. unfold feature_sets.
  destruct (failed_errors Err _); reflexivity.
Qed.

(** C9, as amended. With the default batch size of 1000, [append_batches]
    cuts the data frame into consecutive chunks that together are the
    whole frame, each of 1000 rows except the last, which has between 1
    and 1000, and calls the platform once per chunk, in order. For every
    data frame and every platform whose calls all return a result, every
    chunk is sent whatever the earlier answers held; the errors of the
    entries that did not succeed are gathered over all chunks, and after
    the last chunk the call returns if there are none and otherwise raises
    one [RuntimeError] that carries their number and the first of them. *)
Theorem append_batches_default (sdf : list Row) (keep_cols : list string)
  (p : Platform L FeatureSet) :
  exists chunks : list (list Row),
    concat chunks = sdf
    /\ (forall c, In c chunks -> 1 <= length c <= 1000)
    /\ Forall (fun c => length c = 1000) (removelast chunks)
    /\ let fss := map (fun c => to_fs c (keep_cols ++ ["SHAPE"])) chunks in
       let results := fst (replay FeatureSet Err L platform (layer p) fss) in
       let errors := failed_errors Err results in
       append_batches Row FeatureSet Err L (built Row FeatureSet to_fs)
         (answering FeatureSet Err L platform) err_str sdf keep_cols
         default_batch_size p
       = (match errors with
          | [] => Ok tt
          | first :: _ =>
              Raise (RuntimeError
                       ("Failed during batch appending: "
                        ++ fmt_d (length errors)
                        ++ " adds failed. First error: " ++ err_str first))
          end,
          {| layer := snd (replay FeatureSet Err L platform (layer p) fss);
             calls := calls p ++ fss |}).
Proof.
  assert (Hpos : (0 < default_batch_size)%Z) by reflexivity.
  exists (slices Row sdf default_batch_size
            (range_from (length sdf) 0 (length sdf)
               (Z.to_nat default_batch_size))).
  split; [|split; [|split]].
  - rewrite (slices_eq Row sdf default_batch_size Hpos).
    rewrite (slices_concat Row sdf default_batch_size Hpos); [reflexivity|lia].
  - intros c Hin.
    rewrite (slices_eq Row sdf default_batch_size Hpos) in Hin.
    exact (slices_bounds Row sdf default_batch_size Hpos _ _ c Hin).
  - rewrite (slices_eq Row sdf default_batch_size Hpos).
    exact (slices_full Row sdf default_batch_size Hpos _ _).
  - exact (append_batches_answering sdf keep_cols default_batch_size p Hpos).
Qed.

(** X1. A batch size of zero: [range] raises inside the [try], the platform
    is not called, and the exception comes back wrapped. *)
Theorem append_batches_zero (to_featureset : list Row -> list string
                                              -> Result FeatureSet)
  (edit_features : L -> FeatureSet -> Result (EditResult Err) * L)
  (sdf : list Row) (keep_cols : list string) (p : Platform L FeatureSet) :
  append_batches Row FeatureSet Err L to_featureset edit_features err_str
    sdf keep_cols 0 p
  = (Raise (RuntimeError
              "Failed during batch appending: range() arg 3 must not be zero"),
     p).
Proof. reflexivity. Qed.

(** X2. A call to the platform that raises ends the loop: the chunks after
    it are not sent, and the exception comes back wrapped. *)
Theorem append_batches_call_raises
  (edit_features : L -> FeatureSet -> Result (EditResult Err) * L)
  (row : Row) (sdf : list Row) (keep_cols : list string) (batch_size : Z)
  (p : Platform L FeatureSet) (e : Exn) (l' : L) :
  (0 < batch_size)%Z ->
  let first_chunk :=
    iloc Row (row :: sdf) 0
      (Nat.min (Z.to_nat batch_size) (length (row :: sdf))) in
  let fs := to_fs first_chunk (keep_cols ++ ["SHAPE"]) in
  edit_features (layer p) fs = (Raise e, l') ->
  append_batches Row FeatureSet Err L (built Row FeatureSet to_fs)
    edit_features err_str (row :: sdf) keep_cols batch_size p
  = (Raise (RuntimeError ("Failed during batch appending: " ++ exc_str e)),
     {| layer := l'; calls := calls p ++ [fs] |}).
Proof.
  intros Hpos first_chunk fs Hraise.
  unfold append_batches, try_except.
  unfold bind at 1. unfold lift, py_range0.
  replace (batch_size =? 0)%Z with false by (symmetry; apply Z.eqb_neq; lia).
  replace (batch_size <? 0)%Z with false by (symmetry; apply Z.ltb_ge; lia).
  cbn [length range_from Nat.ltb Nat.leb].
  unfold bind at 1. cbn [batch_loop].
  unfold bind at 1. unfold lift, build_featureset, built.
  unfold bind at 1. unfold call_edit_features.
  change (Z.of_nat 0 + batch_size)%Z with batch_size.
  fold first_chunk. fold fs. rewrite Hraise. reflexivity.
Qed.

End Loop.

End SpatialEtlFacts.

(* ===================================================================== *)
(** ** Batch upload: sizes, counts and failures *)
(* ===================================================================== *)

Module BatchFacts.
Import SpatialEtl.

Section Sizes.
Context {SR : StrRepr}.
Variables Row FeatureSet Err L : Type.
Variable to_featureset : list Row -> list string -> Result FeatureSet.
Variable edit_features : L -> FeatureSet -> Result (EditResult Err) * L.
Variable err_str : option Err -> string.

(** X4. Whatever the SDK and the platform do, [append_batches] returns or
    raises a [RuntimeError] whose message starts with the words of its own
    [except] clause; no other exception leaves it. *)
Theorem append_batches_raises_runtime_error (sdf : list Row)
  (keep_cols : list string) (batch_size : Z) (p : Platform L FeatureSet) :
  fst (append_batches Row FeatureSet Err L to_featureset edit_features
         err_str sdf keep_cols batch_size p) = Ok tt
  \/ exists msg,
       fst (append_batches Row FeatureSet Err L to_featureset edit_features
              err_str sdf keep_cols batch_size p)
       = Raise (RuntimeError ("Failed during batch appending: " ++ msg)).
Proof.
  unfold append_batches, try_except.
  match goal with
  | |- context [match ?body p with _ => _ end] => destruct (body p) as [[[]|e] q]
  end.
  - now left.
  - right. exists (exc_str e). reflexivity.
Qed.

(** X5. A negative batch size uploads nothing and says nothing: the range
    of starts is empty, the platform is not called, and the call returns
    as if every row had been added. *)
Theorem append_batches_negative_size (sdf : list Row)
  (keep_cols : list string) (batch_size : Z) (p : Platform L FeatureSet) :
  (batch_size < 0)%Z ->
  append_batches Row FeatureSet Err L to_featureset edit_features err_str
    sdf keep_cols batch_size p
  = (Ok tt, p).
Proof.
  intros Hneg. unfold append_batches, try_except.
  unfold bind at 1. unfold lift, py_range0.
  replace (batch_size =? 0)%Z with false by (symmetry; apply Z.eqb_neq; lia).
  replace (batch_size <? 0)%Z with true by (symmetry; apply Z.ltb_lt; lia).
  reflexivity.
Qed.

(** X6. An empty data frame makes no call to the platform and returns,
    for every batch size other than zero. *)
Theorem append_batches_empty_frame (keep_cols : list string) (batch_size : Z)
  (p : Platform L FeatureSet) :
  batch_size <> 0%Z ->
  append_batches Row FeatureSet Err L to_featureset edit_features err_str
    [] keep_cols batch_size p
  = (Ok tt, p).
Proof.
  intros Hnz. unfold append_batches, try_except.
  unfold bind at 1. unfold lift, py_range0.
  replace (batch_size =? 0)%Z with false by (symmetry; apply Z.eqb_neq; lia).
  destruct (batch_size <? 0)%Z; reflexivity.
Qed.

End Sizes.

Section Counts.
Variable Row : Type.
Variables (sdf : list Row) (s : nat).
Hypothesis step_pos : 1 <= s.

Lemma range_from_length (fuel start : nat) :
  length sdf - start <= fuel ->
  length (range_from fuel start (length sdf) s)
  = (length sdf - start + s - 1) / s.
Proof.
  revert start. induction fuel as [|fuel IH]; intros start Hfuel; simpl.
  - replace (length sdf - start + s - 1) with (s - 1) by lia.
    symmetry. apply Nat.div_small. lia.
  - destruct (Nat.ltb start (length sdf)) eqn:E.
    + apply Nat.ltb_lt in E. simpl. rewrite IH by lia.
      destruct (Nat.le_gt_cases (length sdf - start) s) as [Hle|Hgt].
      * replace (length sdf - (start + s) + s - 1) with (s - 1) by lia.
        rewrite Nat.div_small by lia.
        apply (Nat.div_unique _ _ 1 (length sdf - start - 1)); lia.
      * replace (length sdf - start + s - 1)
          with (length sdf - (start + s) + s - 1 + 1 * s) by lia.
        rewrite Nat.div_add by lia. lia.
    + apply Nat.ltb_ge in E.
      replace (length sdf - start + s - 1) with (s - 1) by lia.
      symmetry. apply Nat.div_small. lia.
Qed.

End Counts.

Section Positive.
Context {SR : StrRepr}.
Variables Row FeatureSet Err L : Type.
Variable to_fs : list Row -> list string -> FeatureSet.
Variable platform : L -> FeatureSet -> EditResult Err * L.
Variable err_str : option Err -> string.

(** X7. For every positive batch size [b], against a platform that answers
    every call: the data frame is sent whole, in [ceil(n / b)] calls, one
    per chunk and in order; no chunk is empty or longer than [b], and all
    but the last have [b] rows; the outcome is decided after the last call
    by the errors gathered over all of them. *)
Theorem append_batches_positive_size (sdf : list Row)
  (keep_cols : list string) (batch_size : Z) (p : Platform L FeatureSet) :
  (0 < batch_size)%Z ->
  exists chunks : list (list Row),
    concat chunks = sdf
    /\ length chunks
       = (length sdf + Z.to_nat batch_size - 1) / Z.to_nat batch_size
    /\ (forall c, In c chunks -> 1 <= length c <= Z.to_nat batch_size)
    /\ Forall (fun c => length c = Z.to_nat batch_size) (removelast chunks)
    /\ let fss := map (fun c => to_fs c (keep_cols ++ ["SHAPE"])) chunks in
       let errors :=
         failed_errors Err
           (fst (replay FeatureSet Err L platform (layer p) fss)) in
       append_batches Row FeatureSet Err L (built Row FeatureSet to_fs)
         (answering FeatureSet Err L platform) err_str sdf keep_cols
         batch_size p
       = (match errors with
          | [] => Ok tt
          | first :: _ =>
              Raise (RuntimeError
                       ("Failed during batch appending: "
                        ++ fmt_d (length errors)
                        ++ " adds failed. First error: " ++ err_str first))
          end,
          {| layer := snd (replay FeatureSet Err L platform (layer p) fss);
             calls := calls p ++ fss |}).
Proof.
  intros Hpos.
  exists (slices Row sdf batch_size
            (range_from (length sdf) 0 (length sdf) (Z.to_nat batch_size))).
  split; [|split; [|split; [|split]]].
  - rewrite (SpatialEtlFacts.slices_eq Row sdf batch_size Hpos).
    rewrite (SpatialEtlFacts.slices_concat Row sdf batch_size Hpos);
      [reflexivity|lia].
  - unfold slices. rewrite length_map.
    rewrite (range_from_length Row sdf (Z.to_nat batch_size)) by lia.
    f_equal. lia.
  - intros c Hin.
    rewrite (SpatialEtlFacts.slices_eq Row sdf batch_size Hpos) in Hin.
    exact (SpatialEtlFacts.slices_bounds Row sdf batch_size Hpos _ _ c Hin).
  - rewrite (SpatialEtlFacts.slices_eq Row sdf batch_size Hpos).
    exact (SpatialEtlFacts.slices_full Row sdf batch_size Hpos _ _).
  - exact (SpatialEtlFacts.append_batches_answering Row FeatureSet Err L
             to_fs platform err_str sdf keep_cols batch_size p Hpos).
Qed.

(** X8. A feature set that the SDK cannot build ends the upload at that
    chunk: for a data frame with at least one row and a positive batch
    size, when the first chunk cannot be built the platform is not called
    at all, and the error comes back wrapped twice. *)
Theorem append_batches_build_fails
  (to_featureset : list Row -> list string -> Result FeatureSet)
  (edit_features : L -> FeatureSet -> Result (EditResult Err) * L)
  (row : Row) (sdf : list Row) (keep_cols : list string) (batch_size : Z)
  (p : Platform L FeatureSet) (e : Exn) :
  (0 < batch_size)%Z ->
  to_featureset
    (iloc Row (row :: sdf) 0
       (Nat.min (Z.to_nat batch_size) (length (row :: sdf))))
    (keep_cols ++ ["SHAPE"]) = Raise e ->
  append_batches Row FeatureSet Err L to_featureset edit_features err_str
    (row :: sdf) keep_cols batch_size p
  = (Raise (RuntimeError
              ("Failed during batch appending: "
               ++ "Failed to build FeatureSet from batch: " ++ exc_str e)),
     p).
Proof.
  intros Hpos Hraise.
  unfold append_batches, try_except.
  unfold bind at 1. unfold lift, py_range0.
  replace (batch_size =? 0)%Z with false by (symmetry; apply Z.eqb_neq; lia).
  replace (batch_size <? 0)%Z with false by (symmetry; apply Z.ltb_ge; lia).
  cbn [length range_from Nat.ltb Nat.leb].
  unfold bind at 1. cbn [batch_loop].
  unfold bind at 1. unfold lift, build_featureset.
  change (Z.of_nat 0 + batch_size)%Z with batch_size.
  rewrite Hraise. reflexivity.
Qed.

End Positive.

End BatchFacts.

(* ===================================================================== *)
(** ** Settings: validation and construction *)
(* ===================================================================== *)

Module ConfigFacts.
Import Config.

Section Settings.
Context {R : YamlRepr} {E : SourceEnv}.

Lemma known_type_in (s : string) (members : list string) :
  existsb (String.eqb s) members = true <-> In s members.
Proof.
  rewrite existsb_exists. split.
  - intros [x [Hin Heq]]. apply String.eqb_eq in Heq. now subst.
  - intros Hin. exists s. split; auto. apply String.eqb_refl.
Qed.

Lemma validate_settings_sound (cfg : Yaml) :
  validate_settings cfg = Ok tt -> well_formed cfg.
Proof.
  intros H. unfold validate_settings, _require, and_then in H.
  cbn [split_dots Ascii.eqb Bool.eqb require_keys] in H.
  destruct cfg as [| | | | |m]; try discriminate H.
  destruct (PyDict.get m "project") as [p|] eqn:Ep; [|discriminate H].
  destruct (PyDict.get m "source") as [s|] eqn:Es; [|discriminate H].
  destruct s as [| | | | |src]; try discriminate H.
  destruct (PyDict.get src "type") as [st|] eqn:Est; [|discriminate H].
  destruct (PyDict.get m "target") as [t|] eqn:Et; [|discriminate H].
  destruct t as [| | | | |tgt]; try discriminate H.
  destruct (PyDict.get tgt "type") as [ty|] eqn:Ety; [|discriminate H].
  cbn [index] in H. rewrite Es, Et in H. cbn [index] in H.
  rewrite Est, Ety in H.
  destruct st as [| | |st| |]; cbn [in_str_set negb] in H;
    try discriminate H.
  destruct (existsb (String.eqb st) source_types) eqn:Eknown;
    cbn [negb] in H; [|discriminate H].
  destruct ty as [| | |ty| |]; cbn [in_str_set negb] in H;
    try discriminate H.
  destruct (existsb (String.eqb ty) target_types) eqn:Eknown';
    cbn [negb] in H; [|discriminate H].
  apply known_type_in in Eknown, Eknown'.
  destruct Eknown' as [<-|[]].
  exists m, src, tgt, st. repeat split; auto.
  unfold PyDict.contains. now rewrite Ep.
Qed.

Lemma validate_settings_complete (cfg : Yaml) :
  well_formed cfg -> validate_settings cfg = Ok tt.
Proof.
  intros [m [src [tgt [st [-> [Hp [Hs [Hst [Hin [Ht Hty]]]]]]]]]].
  unfold PyDict.contains in Hp.
  destruct (PyDict.get m "project") as [p|] eqn:Ep; [|discriminate].
  unfold validate_settings, _require, and_then.
  cbn [split_dots Ascii.eqb Bool.eqb require_keys index].
  rewrite Ep, Hs, Ht. cbn [index]. rewrite Hst, Hty.
  cbn [in_str_set].
  rewrite (proj2 (known_type_in st source_types) Hin). reflexivity.
Qed.

(** X13. [validate_settings] passes exactly the configurations that are a
    mapping with a [project] entry, a [source] mapping whose [type] is one
    of the strings [csv], [postgres], [gsheet], and a [target] mapping
    whose [type] is the string [arcgis_online]. Nothing else is looked
    at: not the path, the query or the layer URL. *)
Theorem validate_settings_passes_iff (cfg : Yaml) :
  validate_settings cfg = Ok tt
  <-> exists m src tgt st,
        cfg = YMap m
        /\ PyDict.contains m "project" = true
        /\ PyDict.get m "source" = Some (YMap src)
        /\ PyDict.get src "type" = Some (YStr st)
        /\ In st source_types
        /\ PyDict.get m "target" = Some (YMap tgt)
        /\ PyDict.get tgt "type" = Some (YStr "arcgis_online").
Proof.
  split; [apply validate_settings_sound | apply validate_settings_complete].
Qed.

(** X14. On a configuration that [validate_settings] passed, [_source]
    reaches one of its three constructor calls and never its own
    [Unsupported source.type] error: it raises a [KeyError] for the first
    setting of the configured type that is missing, and otherwise hands
    the settings to the constructor of that type and returns or raises
    what the constructor does; a missing [worksheet] is [Sheet1]. *)
Theorem validated_source_is_supported (cfg : Yaml) :
  validate_settings cfg = Ok tt ->
  exists src st,
    index cfg "source" = Ok (YMap src)
    /\ PyDict.get src "type" = Some (YStr st)
    /\ (st = "csv"
        /\ _source cfg
           = match PyDict.get src "path" with
             | None => Raise (KeyError "path")
             | Some path => CsvSource_init path
             end
        \/ st = "postgres"
           /\ _source cfg
              = match PyDict.get src "dsn" with
                | None => Raise (KeyError "dsn")
                | Some dsn =>
                    match PyDict.get src "query" with
                    | None => Raise (KeyError "query")
                    | Some query => PostgresSource_init dsn query
                    end
                end
        \/ st = "gsheet"
           /\ _source cfg
              = match PyDict.get src "spreadsheet_id" with
                | None => Raise (KeyError "spreadsheet_id")
                | Some sid =>
                    GoogleSheetSource_init sid
                      (match PyDict.get src "worksheet" with
                       | Some ws => ws
                       | None => YStr "Sheet1"
                       end)
                end).
Proof.
  intros H. apply validate_settings_sound in H.
  destruct H as [m [src [tgt [st [-> [_ [Hs [Hst [Hin _]]]]]]]]].
  exists src, st. cbn [index]. rewrite Hs.
  split; [reflexivity|]. split; [exact Hst|].
  unfold _source, and_then. cbn [index]. rewrite Hs. cbn [index].
  rewrite Hst.
  destruct Hin as [<-|[<-|[<-|[]]]];
    cbn [eq_str String.eqb Ascii.eqb Bool.eqb get_or].
  - left. split; [reflexivity|]. now destruct (PyDict.get src "path").
  - right. left. split; [reflexivity|].
    destruct (PyDict.get src "dsn"); [|reflexivity].
    now destruct (PyDict.get src "query").
  - right. right. split; [reflexivity|].
    now destruct (PyDict.get src "spreadsheet_id").
Qed.

Lemma rstrip_slash_spec (u : string) :
  exists n,
    u = (rstrip_slash u ++ slashes n)%string
    /\ last_char (rstrip_slash u) <> Some "/"%char.
Proof.
  induction u as [|c rest [n [Hrest Hlast]]]; simpl.
  - exists 0. split; [reflexivity | discriminate].
  - destruct (rstrip_slash rest) as [|d t] eqn:Er.
    + destruct (Ascii.eqb c "/") eqn:Ec.
      * apply Ascii.eqb_eq in Ec. subst c.
        exists (S n). simpl in *. split; [now rewrite <- Hrest | discriminate].
      * exists n. simpl in *. split; [now rewrite <- Hrest|].
        intros [= ->]. now rewrite Ascii.eqb_refl in Ec.
    + exists n. split; [simpl in *; now rewrite <- Hrest | exact Hlast].
Qed.

Lemma rstrip_slash_fixed (u : string) :
  last_char u <> Some "/"%char -> rstrip_slash u = u.
Proof.
  induction u as [|c rest IH]; simpl; auto.
  intros Hlast. destruct rest as [|d t].
  - simpl. destruct (Ascii.eqb c "/") eqn:Ec; auto.
    apply Ascii.eqb_eq in Ec. subst c. now contradiction Hlast.
  - rewrite IH by exact Hlast.
    reflexivity.
Qed.

(** X15. The sink that [_sink] builds keeps the configured layer URL but
    for the slashes at its end: its [url] does not end with a slash, the
    configured URL is that [url] followed by slashes only, stripping it
    again changes nothing, and its [dry_run] is the manager's. *)
Theorem sink_url_has_no_trailing_slash (cfg : Yaml) (dry : bool)
  (sink : SinkObject) :
  _sink cfg dry = Ok sink ->
  exists t u n,
    index cfg "target" = Ok t
    /\ index t "feature_layer_url" = Ok (YStr u)
    /\ u = (url sink ++ slashes n)%string
    /\ last_char (url sink) <> Some "/"%char
    /\ rstrip_slash (url sink) = url sink
    /\ sink_dry_run sink = dry.
Proof.
  unfold _sink, and_then. intros H.
  destruct (index cfg "target") as [t|e] eqn:Et; [|discriminate H].
  destruct (index t "feature_layer_url") as [u|e] eqn:Eu; [|discriminate H].
  destruct (get_or t "auth" (YMap [])) as [a|e] eqn:Ea; [|discriminate H].
  destruct u as [| | |u| |]; try discriminate H.
  injection H as <-. cbn [url sink_dry_run].
  destruct (rstrip_slash_spec u) as [n [Hu Hlast]].
  exists t, u, n. repeat split; auto.
  now apply rstrip_slash_fixed.
Qed.

End Settings.

End ConfigFacts.

(* ===================================================================== *)
(** ** The columns that reach the layer *)
(* ===================================================================== *)

Module AlignFacts.
Import Align.

Section Columns.
Context {SM : StrMethods}.

Lemma has_name_in (names : list Value) (c : string) :
  has_name names c = true <-> In (VStr c) names.
Proof.
  unfold has_name. rewrite existsb_exists. split.
  - intros [v [Hin Hv]]. destruct v; try discriminate.
    apply String.eqb_eq in Hv. now subst.
  - intros Hin. exists (VStr c). split; auto. apply String.eqb_refl.
Qed.

Lemma is_protected_in (protected : list string) (c : string) :
  is_protected protected c = true <-> In c protected.
Proof.
  unfold is_protected. rewrite existsb_exists. split.
  - intros [x [Hin Hx]]. apply String.eqb_eq in Hx. now subst.
  - intros Hin. exists c. split; auto. apply String.eqb_refl.
Qed.

Lemma protected_has_objectid (layer : LayerProperties)
  (protected : list string) :
  get_protected_fields layer = Ok protected ->
  In "OBJECTID" protected
  /\ (forall g, stripped_global_id layer = Ok g -> g <> "" ->
                In g protected)
  /\ (forall c, In c protected ->
                c = "OBJECTID" \/ stripped_global_id layer = Ok c).
Proof.
  unfold get_protected_fields.
  destruct (stripped_global_id layer) as [gid|e]; [|discriminate].
  destruct (String.eqb gid "") eqn:E; simpl; intros [= <-].
  - apply String.eqb_eq in E. subst gid.
    repeat split; simpl; auto.
    + intros g [= <-] Hne. contradiction.
    + intros c [<-|[]]. now left.
  - repeat split; simpl; auto.
    + intros g [= <-] _. auto.
    + intros c [<-|[<-|[]]]; auto.
Qed.

(** X16. When [align_fields_to_layer] returns, the columns it keeps are
    columns of the (renamed) data frame, in their order, that name a field
    of the layer; [OBJECTID] is never among them, nor is the layer's
    global id field (stripped); and every other column that names a field
    of the layer is kept. The data frame itself keeps all its columns. *)
Theorem align_keeps_layer_fields_only (columns : list string)
  (layer : LayerProperties) (rename_map : option (PyDict.t string))
  (columns' keep_cols : list string) :
  align_fields_to_layer columns layer rename_map = Ok (columns', keep_cols) ->
  length columns' = length columns
  /\ ~ In "OBJECTID" keep_cols
  /\ (forall g, stripped_global_id layer = Ok g -> g <> "" ->
                ~ In g keep_cols)
  /\ exists names,
       get_layer_fields layer = Ok names
       /\ (forall c, In c keep_cols -> In c columns' /\ In (VStr c) names)
       /\ (forall c, In c columns' -> In (VStr c) names ->
                     c <> "OBJECTID" -> stripped_global_id layer <> Ok c ->
                     In c keep_cols)
       /\ (exists keep, keep_cols = filter keep columns').
Proof.
  unfold align_fields_to_layer.
  destruct (get_layer_fields layer) as [names|e] eqn:En; [|discriminate].
  destruct (get_protected_fields layer) as [protected|e] eqn:Ep;
    [|discriminate].
  intros [= <- <-].
  destruct (protected_has_objectid layer protected Ep) as [Hoid [Hgid Honly]].
  split; [|split; [|split]].
  - destruct rename_map as [[|kv m]|]; auto. unfold rename.
    now rewrite length_map.
  - intros Hin. apply filter_In in Hin as [_ Hc].
    apply andb_true_iff in Hc as [_ Hc]. apply negb_true_iff in Hc.
    apply is_protected_in in Hoid. congruence.
  - intros g Hg Hne Hin. apply filter_In in Hin as [_ Hc].
    apply andb_true_iff in Hc as [_ Hc]. apply negb_true_iff in Hc.
    specialize (Hgid g Hg Hne). apply is_protected_in in Hgid. congruence.
  - exists names. split; [reflexivity|]. split; [|split].
    + intros c Hin. apply filter_In in Hin as [Hin Hc].
      apply andb_true_iff in Hc as [Hc _]. split; auto.
      now apply has_name_in.
    + intros c Hin Hname Hno Hng. apply filter_In. split; auto.
      apply andb_true_iff. split; [now apply has_name_in|].
      apply negb_true_iff.
      destruct (is_protected protected c) eqn:E; auto.
      apply is_protected_in in E. destruct (Honly c E); contradiction.
    + eauto.
Qed.

(** X17. [align_fields_to_layer] fails exactly when a field of the layer
    has no [name] or the layer's global id field is a number or [True];
    what it raises is then a [RuntimeError] that says so. *)
Theorem align_fails_on_bad_layer (columns : list string)
  (layer : LayerProperties) (rename_map : option (PyDict.t string)) :
  (exists f, In f (fields layer) /\ PyDict.contains f "name" = false)
  \/ (exists v, globalIdField layer = Some v /\ truthy v = true
                /\ forall s, v <> VStr s)
  <-> exists msg,
        align_fields_to_layer columns layer rename_map
        = Raise (RuntimeError ("Failed to align fields to layer: " ++ msg)).
Proof.
  assert (Hnames : forall fs,
             (exists f, In f fs /\ PyDict.contains f "name" = false)
             <-> field_names fs = Raise (KeyError "name")).
  { induction fs as [|f fs IH]; simpl.
    - split; [intros [f [[] _]] | discriminate].
    - unfold PyDict.contains in *.
      destruct (PyDict.get f "name") eqn:E.
      + destruct (field_names fs) as [names|e].
        * split; [|discriminate].
          intros [f' [[<-|Hin] Hf']]; [now rewrite E in Hf'|].
          assert (Hex : exists f0, In f0 fs
                         /\ match PyDict.get f0 "name" with
                            | Some _ => true | None => false end = false)
            by eauto.
          apply IH in Hex. discriminate.
        * split.
          -- intros [f' [[<-|Hin] Hf']]; [now rewrite E in Hf'|].
             assert (Hex : exists f0, In f0 fs
                            /\ match PyDict.get f0 "name" with
                               | Some _ => true | None => false end = false)
               by eauto.
             apply IH in Hex. congruence.
          -- intros [= ->]. destruct (proj2 IH eq_refl) as [f' [Hin Hf']].
             exists f'. auto.
      + split; auto. intros _. exists f. rewrite E. auto. }
  assert (Hnames_ok : forall fs e,
             field_names fs = Raise e -> e = KeyError "name").
  { induction fs as [|f fs IH]; simpl; [discriminate|].
    intros e. destruct (PyDict.get f "name"); [|now intros [= <-]].
    destruct (field_names fs) as [names|e']; [discriminate|].
    intros [= <-]. now apply IH. }
  unfold align_fields_to_layer, get_layer_fields, get_protected_fields,
    stripped_global_id.
  split.
  - intros [Hbad|[v [Hv [Ht Hns]]]].
    + apply Hnames in Hbad. rewrite Hbad. eauto.
    + destruct (field_names (fields layer)) as [names|e]; [|eauto].
      rewrite Hv, Ht.
      destruct v as [| | |s]; eauto. now contradiction (Hns s).
  - intros [msg H].
    destruct (field_names (fields layer)) as [names|e] eqn:En.
    + right. destruct (globalIdField layer) as [v|] eqn:Ev.
      * destruct (truthy v) eqn:Et.
        -- exists v. repeat split; auto. intros s ->.
           destruct (negb (String.eqb (py_strip s) "")); discriminate.
        -- destruct (negb (String.eqb (py_strip "") "")); discriminate.
      * destruct (negb (String.eqb (py_strip "") "")); discriminate.
    + left. apply Hnames. now rewrite (Hnames_ok _ _ En) in En.
Qed.

End Columns.

End AlignFacts.

(* ===================================================================== *)
(** ** The object id field *)
(* ===================================================================== *)

Module LayerFieldsFacts.
Import Align LayerFields.

Section ObjectId.
Context {SM : StrMethods}.

Lemma has_oid_with_oid_first (fields : list Field) :
  py_upper "OBJECTID" = "OBJECTID" ->
  has_oid (OID_FIELD :: fields) = Ok true.
Proof.
  intros Hup. cbn [has_oid]. unfold name_with, OID_FIELD at 1.
  cbn [PyDict.get String.eqb Ascii.eqb Bool.eqb]. rewrite Hup.
  reflexivity.
Qed.

(** X18. [ensure_oid] returns its argument when the argument already has a
    field that is named [OBJECTID] (in any case) and typed as an object id,
    and otherwise that list with the object id field in front. Either way
    the result has such a field, and a second pass returns it as it is. *)
Theorem ensure_oid_adds_once (fields result : list Field) :
  py_upper "OBJECTID" = "OBJECTID" ->
  ensure_oid fields = Ok result ->
  has_oid result = Ok true
  /\ ensure_oid result = Ok result
  /\ (has_oid fields = Ok true /\ result = fields
      \/ has_oid fields = Ok false /\ result = OID_FIELD :: fields).
Proof.
  intros Hup. unfold ensure_oid.
  destruct (has_oid fields) as [[|]|e] eqn:E; intros [= <-].
  - rewrite E. auto.
  - rewrite (has_oid_with_oid_first fields Hup). auto.
Qed.

Lemma has_objectid_with_oid_first (fields : list Field) :
  py_lower "OBJECTID" = "objectid" ->
  has_objectid (OID_FIELD :: fields) = Ok true.
Proof.
  intros Hlow. cbn [has_objectid]. unfold name_with, OID_FIELD at 1.
  cbn [PyDict.get String.eqb Ascii.eqb Bool.eqb]. rewrite Hlow.
  reflexivity.
Qed.

Lemma nth_replace_nth_same {A : Type} (i : nat) (l : list A) (x d : A) :
  i < length l -> nth i (replace_nth i l x) d = x.
Proof.
  revert i. induction l as [|a l IH]; intros [|i] Hi; simpl in *;
    try lia; auto.
  apply IH. lia.
Qed.

Lemma nth_replace_nth_other {A : Type} (i j : nat) (l : list A) (x d : A) :
  i <> j -> nth j (replace_nth i l x) d = nth j l d.
Proof.
  revert i j. induction l as [|a l IH]; intros [|i] [|j] Hne; simpl;
    auto; try congruence.
Qed.

Lemma deref_assign_other (s : Store) (r r' : Ref) (l : list Field) :
  r' <> r -> deref (assign s r l) r' = deref s r'.
Proof.
  destruct r as [|i], r' as [|j]; simpl; auto; try congruence.
  intros Hne. apply nth_replace_nth_other. congruence.
Qed.

Lemma deref_assign_same (s : Store) (r : Ref) (l : list Field) :
  deref s r <> [] -> deref (assign s r l) r = l.
Proof.
  destruct r as [|i]; simpl; auto.
  intros Hne. apply nth_replace_nth_same.
  destruct (Nat.lt_ge_cases i (length (objects s))) as [Hlt|Hge]; auto.
  rewrite nth_overflow in Hne by assumption. contradiction.
Qed.

(** X19. [_prepare_layer_fields] works on the list object it is given, or
    on the module's [DEFAULT_LAYER_FIELDS] when it is given nothing or an
    empty list, and returns that same object. When the object has no field
    named [objectid] (in any case) the field is inserted into it in place,
    so the caller's list, or the shared default, is changed; every other
    list is left alone, and a second call changes nothing. *)
Theorem prepare_layer_fields_in_place (fields : option Ref) (s s' : Store)
  (r : Ref) :
  py_lower "OBJECTID" = "objectid" ->
  _prepare_layer_fields fields s = (Ok r, s') ->
  r = fields_or_default s fields
  /\ has_objectid (deref s' r) = Ok true
  /\ (has_objectid (deref s r) = Ok true /\ s' = s
      \/ has_objectid (deref s r) = Ok false
         /\ deref s' r = OID_FIELD :: deref s r)
  /\ (forall r', r' <> r -> deref s' r' = deref s r')
  /\ _prepare_layer_fields (Some r) s' = (Ok r, s').
Proof.
  intros Hlow. unfold _prepare_layer_fields, _ensure_objectid_field.
  set (r0 := fields_or_default s fields).
  destruct (has_objectid (deref s r0)) as [[|]|e] eqn:E;
    intros [= <- <-].
  - split; [reflexivity|]. split; [exact E|]. split; [now left|].
    split; [reflexivity|].
    assert (Hr : fields_or_default s (Some r0) = r0).
    { unfold fields_or_default at 1.
      destruct (deref s r0) eqn:Ed; auto. discriminate E. }
    rewrite Hr. now rewrite E.
  - assert (Hset : deref (assign s r0 (OID_FIELD :: deref s r0)) r0
                   = OID_FIELD :: deref s r0).
    { destruct r0 as [|i] eqn:Er0; [reflexivity|].
      apply deref_assign_same.
      unfold r0, fields_or_default in Er0.
      destruct fields as [rf|]; [|discriminate].
      destruct (deref s rf) eqn:Ed; [discriminate|].
      subst rf. congruence. }
    split; [reflexivity|]. rewrite Hset.
    split; [now apply has_objectid_with_oid_first|].
    split; [now right|].
    split; [intros r' Hne; now apply deref_assign_other|].
    assert (Hr : fields_or_default
                   (assign s r0 (OID_FIELD :: deref s r0)) (Some r0) = r0).
    { unfold fields_or_default at 1. now rewrite Hset. }
    rewrite Hr, Hset, (has_objectid_with_oid_first _ Hlow). reflexivity.
Qed.

(** X20. Called without fields, or with an empty list, on a default that
    has no object id yet, [_prepare_layer_fields] returns the module's
    [DEFAULT_LAYER_FIELDS] itself and leaves it one field longer for every
    later user of the module; the lists of the callers are untouched. *)
Theorem prepare_without_fields_grows_default (fields : option Ref)
  (s : Store) :
  match fields with
  | None => True
  | Some r0 => deref s r0 = []
  end ->
  has_objectid (DEFAULT_LAYER_FIELDS s) = Ok false ->
  fst (_prepare_layer_fields fields s) = Ok Default
  /\ DEFAULT_LAYER_FIELDS (snd (_prepare_layer_fields fields s))
     = OID_FIELD :: DEFAULT_LAYER_FIELDS s
  /\ objects (snd (_prepare_layer_fields fields s)) = objects s.
Proof.
  intros Hnone Hno.
  assert (Hr : fields_or_default s fields = Default).
  { destruct fields as [r0|]; simpl; auto. now rewrite Hnone. }
  unfold _prepare_layer_fields, _ensure_objectid_field. rewrite Hr.
  simpl. rewrite Hno. simpl. auto.
Qed.

End ObjectId.

End LayerFieldsFacts.

(* ===================================================================== *)
(** ** Coordinates within bounds *)
(* ===================================================================== *)

Module CoordinatesFacts.
Import Coordinates.

Section Bounds.
Variable Row : Type.
Variables longitude latitude : Row -> Coord.

Lemma bounded_iff (x : Coord) (lo hi : Z) :
  ge_int x lo && le_int x hi = true <-> within x lo hi.
Proof.
  unfold within. destruct x as [|negative|q]; simpl.
  - split; [discriminate | intros [q [H _]]; discriminate].
  - split; [destruct negative; discriminate | intros [q [H _]]; discriminate].
  - rewrite andb_true_iff, !QArith_base.Qle_bool_iff. split.
    + intros [H1 H2]. exists q. auto.
    + intros [q' [[= <-] H]]. exact H.
Qed.

Lemma in_bounds_iff (r : Row) :
  in_bounds Row longitude latitude r = true
  <-> within (longitude r) (-180) 180 /\ within (latitude r) (-90) 90.
Proof.
  unfold in_bounds. rewrite <- !bounded_iff, !andb_true_iff. tauto.
Qed.

Lemma in_bounds_not_nan (r : Row) :
  in_bounds Row longitude latitude r = true ->
  negb (is_nan (longitude r)) && negb (is_nan (latitude r)) = true.
Proof.
  intros H. apply in_bounds_iff in H as [[q [-> _]] [q' [-> _]]].
  reflexivity.
Qed.

Lemma cleaned_rows (df : list Row) :
  filter (in_bounds Row longitude latitude) (dropna Row longitude latitude df)
  = filter (in_bounds Row longitude latitude) df.
Proof.
  unfold dropna. induction df as [|r df IH]; simpl; auto.
  destruct (in_bounds Row longitude latitude r) eqn:E.
  - rewrite (in_bounds_not_nan r E). simpl. now rewrite E, IH.
  - destruct (negb _ && negb _); simpl; [now rewrite E, IH | exact IH].
Qed.

Lemma filter_idempotent {A : Type} (p : A -> bool) (l : list A) :
  filter p (filter p l) = filter p l.
Proof.
  induction l as [|a l IH]; simpl; auto.
  destruct (p a) eqn:E; simpl; [now rewrite E, IH | exact IH].
Qed.

(** X21. When [clean_coordinates] returns, it returns at least one row;
    its rows are rows of the input, in their order, and every one has a
    finite longitude in [-180, 180] and a finite latitude in [-90, 90];
    no row of the input with such coordinates is missing; and cleaning the
    result again gives it back. *)
Theorem clean_coordinates_within_bounds (df out : list Row) :
  clean_coordinates Row longitude latitude df = Ok out ->
  out <> []
  /\ (forall r, In r out <->
                In r df /\ within (longitude r) (-180) 180
                /\ within (latitude r) (-90) 90)
  /\ (exists keep, out = filter keep df)
  /\ clean_coordinates Row longitude latitude out = Ok out.
Proof.
  unfold clean_coordinates. cbv zeta. rewrite cleaned_rows.
  destruct (filter (in_bounds Row longitude latitude) df) as [|r0 l] eqn:E;
    [discriminate|].
  intros [= <-]. rewrite <- E.
  split; [rewrite E; discriminate|]. split; [|split].
  - intros r. rewrite filter_In, in_bounds_iff. tauto.
  - eauto.
  - rewrite cleaned_rows, filter_idempotent, E. reflexivity.
Qed.

(** X22. [clean_coordinates] raises, with the message that no valid row is
    left, exactly when no row of the input has both coordinates finite and
    within bounds; the empty input is one such case. *)
Theorem clean_coordinates_fails_iff (df : list Row) :
  clean_coordinates Row longitude latitude df
  = Raise (ValueError "No valid rows after cleaning coordinates.")
  <-> (forall r, In r df ->
                 ~ (within (longitude r) (-180) 180
                    /\ within (latitude r) (-90) 90)).
Proof.
  unfold clean_coordinates. cbv zeta. rewrite cleaned_rows.
  destruct (filter (in_bounds Row longitude latitude) df) as [|r0 l] eqn:E.
  - split; auto. intros _ r Hin Hb.
    assert (Hr : In r (filter (in_bounds Row longitude latitude) df)).
    { apply filter_In. split; auto. now apply in_bounds_iff. }
    now rewrite E in Hr.
  - split; [discriminate|]. intros Hnone. exfalso.
    assert (Hr : In r0 (filter (in_bounds Row longitude latitude) df))
      by (rewrite E; now left).
    apply filter_In in Hr as [Hin Hb]. apply in_bounds_iff in Hb.
    exact (Hnone r0 Hin Hb).
Qed.

End Bounds.

End CoordinatesFacts.

(* ===================================================================== *)
(** ** Rows as records *)
(* ===================================================================== *)

Module SourcesFacts.
Import Sources.

Section Zip.
Context {V : Type}.

Lemma keys_fold_set (l : list (string * V)) (acc : PyDict.t V) (k : string) :
  In k (PyDict.keys
          (fold_left (fun d kv => PyDict.set d (fst kv) (snd kv)) l acc)) ->
  In k (PyDict.keys acc) \/ In k (map fst l).
Proof.
  revert acc. induction l as [|[k0 v0] l IH]; intros acc; simpl; auto.
  intros Hin. apply IH in Hin as [Hin|Hin]; auto.
  destruct (PyDict.contains acc k0) eqn:E.
  - apply PyDictFacts.contains_true_iff in E.
    rewrite PyDictFacts.keys_set_present in Hin by assumption. auto.
  - apply PyDictFacts.contains_false_iff in E.
    rewrite PyDictFacts.set_absent in Hin by assumption.
    unfold PyDict.keys in Hin. rewrite map_app in Hin.
    apply in_app_or in Hin as [Hin|[<-|[]]]; auto.
Qed.

Lemma map_fst_combine (cols : list string) (row : list V) :
  length row = length cols -> map fst (combine cols row) = cols.
Proof.
  revert row. induction cols as [|c cols IH]; intros [|v row] Hlen;
    simpl in *; try discriminate; auto.
  f_equal. apply IH. lia.
Qed.

(** X23. The record that [PostgresSource.read] builds from a row: when the
    column names of the query are distinct and the row has one value per
    column, the record has exactly the columns as its keys, in their
    order, and the value under the i-th column is the i-th value of the
    row. *)
Theorem dict_zip_lookup (cols : list string) (row : list V) (d : V) :
  NoDup cols -> length row = length cols ->
  PyDict.keys (dict_zip cols row) = cols
  /\ forall i, i < length cols ->
       PyDict.get (dict_zip cols row) (nth i cols "") = Some (nth i row d).
Proof.
  intros Hnd Hlen.
  assert (Hwf : PyDict.wf (combine cols row)).
  { unfold PyDict.wf, PyDict.keys. now rewrite map_fst_combine. }
  assert (Heq : dict_zip cols row = combine cols row).
  { change (dict_zip cols row)
      with (PyDict.comprehension (fun v : V => v) (combine cols row)).
    rewrite PyDictFacts.comprehension_pointwise by assumption.
    unfold PyDict.pointwise. rewrite <- (map_id (combine cols row)) at 2.
    apply map_ext. now intros [k v]. }
  rewrite Heq. split.
  - unfold PyDict.keys. now apply map_fst_combine.
  - intros i Hi. apply PyDictFacts.in_get_some; auto.
    unfold PyDict.items.
    rewrite <- (combine_nth cols row i "" d) by congruence.
    apply nth_In. rewrite length_combine. lia.
Qed.

(** X24. Whatever the columns and the row, no key of the record is
    anything but a column of the query: a key column that the query does
    not return is missing from every record the source yields. *)
Theorem dict_zip_missing_column (cols : list string) (row : list V)
  (key : string) :
  ~ In key cols -> PyDict.contains (dict_zip cols row) key = false.
Proof.
  intros Hnot. apply PyDictFacts.contains_false_iff.
  intros Hin. apply keys_fold_set in Hin as [[]|Hin].
  apply Hnot. revert Hin. clear.
  revert row. induction cols as [|c cols IH]; intros [|v row]; simpl;
    try tauto.
  intros [<-|Hin]; eauto.
Qed.

End Zip.

End SourcesFacts.

(* ===================================================================== *)
(** ** The whole spatial pipeline *)
(* ===================================================================== *)

Module SpatialRunFacts.
Import SpatialEtl SpatialRun.

Section Whole.
Context {SM : StrMethods} {SR : StrRepr}.
Variables DF Row FeatureSet Err L : Type.
Variable from_xy : DF -> Z -> Result (SpatialFrame Row).
Variable relabel : PyDict.t string -> Row -> Row.
Variable properties : L -> Align.LayerProperties.
Variable err_str : option Err -> string.
Variable query_count : L -> Result Z.

(** X25. Whatever the SDK and the platform do, [run_spatial_etl] returns a
    count or raises a [RuntimeError] whose message starts with
    [Spatial ETL failed]; no other exception leaves it. *)
Theorem run_spatial_etl_raises_runtime_error
  (to_featureset : list Row -> list string -> Result FeatureSet)
  (edit_features : L -> FeatureSet -> Result (EditResult Err) * L)
  (df : DF) (rename_map : option (PyDict.t string)) (sr batch_size : Z)
  (p : Platform L FeatureSet) :
  (exists n,
     fst (run_spatial_etl DF Row FeatureSet Err L from_xy relabel properties
            to_featureset edit_features err_str query_count
            df rename_map sr batch_size p) = Ok n)
  \/ exists msg,
       fst (run_spatial_etl DF Row FeatureSet Err L from_xy relabel
              properties to_featureset edit_features err_str query_count
              df rename_map sr batch_size p)
       = Raise (RuntimeError ("Spatial ETL failed: " ++ msg)).
Proof.
  unfold run_spatial_etl, try_except.
  match goal with
  | |- context [match ?body p with _ => _ end] => destruct (body p) as [[n|e] q]
  end.
  - left. exists n. reflexivity.
  - right. exists (exc_str e). reflexivity.
Qed.

Variable to_fs : list Row -> list string -> FeatureSet.
Variable platform : L -> FeatureSet -> EditResult Err * L.

(** X26. When the frame is built, the fields align and the batch size is
    positive, against a platform that answers every call: the rows go to
    the platform in chunks with exactly the kept columns and [SHAPE]; if no
    add was rejected, the count is asked of the layer as the last chunk
    left it and is what [run_spatial_etl] returns; if any add was rejected,
    the count is not returned and the error says how many adds failed. *)
Theorem run_spatial_etl_counts_after_upload (df : DF)
  (rename_map : option (PyDict.t string)) (sr batch_size : Z)
  (p : Platform L FeatureSet) (sdf : SpatialFrame Row)
  (columns' keep_cols : list string) :
  (0 < batch_size)%Z ->
  from_xy df sr = Ok sdf ->
  Align.align_fields_to_layer (columns sdf) (properties (layer p)) rename_map
  = Ok (columns', keep_cols) ->
  let rows' := renamed_rows Row relabel sdf rename_map in
  let fss :=
    feature_sets Row FeatureSet to_fs rows' keep_cols batch_size
      (range_from (length rows') 0 (length rows') (Z.to_nat batch_size)) in
  let after := replay FeatureSet Err L platform (layer p) fss in
  let errors := failed_errors Err (fst after) in
  run_spatial_etl DF Row FeatureSet Err L from_xy relabel properties
    (built Row FeatureSet to_fs) (answering FeatureSet Err L platform)
    err_str query_count df rename_map sr batch_size p
  = (match errors with
     | [] =>
         match query_count (snd after) with
         | Ok n => Ok n
         | Raise e =>
             Raise (RuntimeError
                      ("Spatial ETL failed: "
                       ++ "Failed to verify layer count: " ++ exc_str e))
         end
     | first :: _ =>
         Raise (RuntimeError
                  ("Spatial ETL failed: "
                   ++ "Failed during batch appending: "
                   ++ fmt_d (length errors)
                   ++ " adds failed. First error: " ++ err_str first))
     end,
     {| layer := snd after; calls := calls p ++ fss |}).
Proof.
  intros Hpos Hxy Halign. cbv zeta.
  unfold run_spatial_etl, try_except.
  unfold bind at 1. unfold lift, build_spatial_df. rewrite Hxy.
  unfold bind at 1. rewrite Halign. cbn [snd].
  unfold bind at 1.
  rewrite (SpatialEtlFacts.append_batches_answering Row FeatureSet Err L
             to_fs platform err_str _ keep_cols batch_size p Hpos).
  cbv zeta. unfold feature_sets.
  destruct (failed_errors Err _) as [|first rest]; [|reflexivity].
  unfold verify_layer_count. cbn [layer].
  destruct (query_count _); reflexivity.
Qed.

End Whole.

End SpatialRunFacts.

(* ===================================================================== *)
(** ** Worked examples *)
(* ===================================================================== *)

#[local] Existing Instance plain_params.
#[local] Existing Instance plain_builtins.
#[local] Existing Instance plain_str_repr.

Lemma alice_wf : PyDict.wf alice.
Proof. repeat constructor; simpl; intuition discriminate. Qed.

Lemma alice_reordered_wf : PyDict.wf alice_reordered.
Proof. repeat constructor; simpl; intuition discriminate. Qed.

Lemma record_hash_field_order_witness :
  record_hash alice "id"
  = record_hash alice_reordered "id".
Proof.
  apply (record_hash_field_order alice alice_reordered "id").
  - exact alice_wf.
  - exact alice_reordered_wf.
  - intros f Hne. unfold alice, alice_reordered. cbn [PyDict.get].
    destruct (String.eqb "id" f) eqn:E1.
    { apply String.eqb_eq in E1. congruence. }
    destruct (String.eqb "name" f) eqn:E2;
      destruct (String.eqb "value" f) eqn:E3; auto.
    apply String.eqb_eq in E2, E3. congruence.
Defined.

Lemma run_twice_no_deltas_witness :
  exists D S1,
    read_records "id" [alice; carol] PyDict.empty = Ok D
    /\ fst (_load_state world_after_first_run) = Ok S1
    /\ diff_by_hash D S1 = ([], [])
    /\ sink_calls (snd (run_with (manager false) [alice; carol]
                          unavailable_sink world_after_first_run))
       = sink_calls world_after_first_run ++ [([], [])].
Proof.
  apply (run_twice_no_deltas (manager false) [alice; carol]
           (ArcGisOnlineSink false) unavailable_sink fresh_world
           world_after_first_run).
  reflexivity.
Defined.

(** C4. A dry run over [alice] from a world without a state file: it logs
    the counts, leaves the hosted layer alone, and writes the state file
    all the same; the run without [dry_run] that follows finds nothing to
    insert, where the dry run had announced one insert. *)
Theorem dry_run_saves_state :
  let w1 := snd (run (manager true) [alice] fresh_world) in
  fst (run (manager true) [alice] fresh_world) = Ok tt
  /\ logged w1
     = [{| level := INFO; message := "Detected 1 inserts, 0 updates" |};
        {| level := INFO;
           message := "[DRY-RUN] Would insert 1 features; update 0 features" |};
        {| level := INFO; message := "Sync completed." |}]
  /\ remote w1 = remote fresh_world
  /\ sink_calls w1 = [([alice], [])]
  /\ state_file w1 = Some (JsonObject [("1", "name=Alice|value=100")])
  /\ state_file w1 <> state_file fresh_world
  /\ sink_calls (snd (run (manager false) [alice] w1))
     = [([alice], []); ([], [])].
Proof.
  cbv zeta. repeat split; try reflexivity.
  vm_compute. discriminate.
Qed.

Lemma run_missing_key_fails_first_witness :
  exists pre bad post,
    [alice; keyless; carol] = pre ++ bad :: post
    /\ (forall r, In r pre -> PyDict.contains r "id" = true)
    /\ PyDict.contains bad "id" = false
    /\ run_with (manager false) [alice; keyless; carol]
         (ArcGisOnlineSink false) fresh_world
       = (Raise (KeyError ("Missing key_column '" ++ "id"
                           ++ "' in record: " ++ repr_dict bad)),
          fresh_world).
Proof.
  apply (run_missing_key_fails_first (manager false) [alice; keyless; carol]
           (ArcGisOnlineSink false) fresh_world).
  exists keyless. split; [simpl; tauto | reflexivity].
Defined.

Lemma load_state_recovers_witness :
  fst (_load_state corrupt_world) = Ok PyDict.empty
  /\ (state_file corrupt_world = None ->
      snd (_load_state corrupt_world) = corrupt_world)
  /\ (forall raw, state_file corrupt_world = Some (Unparsable raw) ->
        snd (_load_state corrupt_world)
        = {| state_file := state_file corrupt_world;
             logged := logged corrupt_world
                       ++ [{| level := WARNING;
                              message := "State file corrupt; starting fresh." |}];
             remote := remote corrupt_world;
             sink_calls := sink_calls corrupt_world |})
  /\ (forall (self : SyncManager) (src : list Record_) (sink : Sink)
             (D : Dataset),
        read_records (key_col self) src PyDict.empty = Ok D ->
        sink_calls (snd (run_with self src sink corrupt_world))
        = sink_calls corrupt_world ++ [(PyDict.values D, [])]).
Proof.
  apply (load_state_recovers corrupt_world).
  right. exists "{not json". reflexivity.
Defined.

Lemma run_replaces_state_witness :
  exists D S1,
    read_records "id" [alice; carol] PyDict.empty = Ok D
    /\ state_file (snd (run_with (manager false) [alice; carol]
                          (ArcGisOnlineSink false) stale_world))
       = Some (JsonObject S1)
    /\ PyDict.keys S1 = PyDict.keys D
    /\ (forall k, PyDict.get S1 k
                  = option_map record_hash1 (PyDict.get D k))
    /\ (forall S0 k, fst (_load_state stale_world) = Ok S0 ->
          PyDict.contains S0 k = true -> PyDict.contains D k = false ->
          PyDict.contains S1 k = false).
Proof.
  apply (run_replaces_state (manager false) [alice; carol]
           (ArcGisOnlineSink false) stale_world
           (snd (run_with (manager false) [alice; carol]
                   (ArcGisOnlineSink false) stale_world))).
  reflexivity.
Defined.

(** The key [9] of the previous state, which no current record has, is
    gone from the state that the run saves. *)
Example stale_key_disappears :
  PyDict.contains (loaded_state stale_world) "9" = true
  /\ state_file (snd (run (manager false) [alice; carol] stale_world))
     = Some (JsonObject [("1", "name=Alice|value=100");
                         ("2", "name=Carol|value=7")]).
Proof. split; reflexivity. Qed.

(** C7, counterexample. [_save_state] is [Path.write_text]: between the
    previous state and the new one the file is empty, which is neither, so
    the replacement is not atomic; a run that is stopped there leaves a
    state file that the next run finds corrupt. *)
Lemma save_state_is_not_atomic :
  ~ atomic_replacement stale_world
      (snd (_save_state [("1", "name=Alice|value=100")] stale_world))
      (_save_state_steps [("1", "name=Alice|value=100")] stale_world).
Proof.
  intros H.
  destruct (H (truncated stale_world) (or_introl eq_refl)) as [E|E];
    discriminate E.
Qed.

Lemma sink_failure_keeps_state_witness :
  fst (run_with (manager false) [alice; carol] unavailable_sink fresh_world)
  = Raise (RuntimeError "platform unreachable")
  /\ state_file (snd (run_with (manager false) [alice; carol]
                        unavailable_sink fresh_world))
     = state_file fresh_world
  /\ sink_calls (snd (run_with (manager false) [alice; carol]
                        unavailable_sink fresh_world))
     = sink_calls fresh_world ++ [([alice; carol], [])]
  /\ (forall sink',
        sink_calls (snd (run_with (manager false) [alice; carol] sink'
                           (snd (run_with (manager false) [alice; carol]
                                   unavailable_sink fresh_world))))
        = sink_calls fresh_world
          ++ [([alice; carol], []); ([alice; carol], [])]).
Proof.
  apply (sink_failure_keeps_state (manager false) [alice; carol]
           unavailable_sink fresh_world
           [("1", alice); ("2", carol)] PyDict.empty
           (RuntimeError "platform unreachable"));
    reflexivity.
Defined.

Lemma run_last_record_wins_witness :
  fst (run (manager false) [alice; carol; bob] fresh_world) = Ok tt
  /\ exists to_insert to_update S0 S1,
       sink_calls (snd (run (manager false) [alice; carol; bob] fresh_world))
       = sink_calls fresh_world ++ [(to_insert, to_update)]
       /\ fst (_load_state fresh_world) = Ok S0
       /\ state_file (snd (run (manager false) [alice; carol; bob]
                             fresh_world))
          = Some (JsonObject S1)
       /\ PyDict.get S1 "1" = Some (record_hash1 bob)
       /\ (PyDict.get S0 "1" = None -> In bob to_insert)
       /\ (forall h, PyDict.get S0 "1" = Some h -> h <> record_hash1 bob ->
                     In bob to_update)
       /\ (forall x, In x (to_insert ++ to_update) ->
                     key_of "id" x = Some "1" -> x = bob)
       /\ (alice <> bob -> ~ In alice (to_insert ++ to_update)).
Proof.
  apply (run_last_record_wins (manager false) fresh_world
           [] [carol] [] alice bob "1").
  - intros x [<-|[<-|[<-|[]]]]; reflexivity.
  - reflexivity.
  - reflexivity.
  - intros x [].
Defined.

(** The integer 1 and the string 1 meet under one key: of [alice] and
    [bob] only [bob], read last, reaches the sink and the state. *)
Example int_and_string_key_collide :
  key_of "id" alice = key_of "id" bob
  /\ sink_calls (snd (run (manager false) [alice; carol; bob] fresh_world))
     = [([bob; carol], [])]
  /\ state_file (snd (run (manager false) [alice; carol; bob] fresh_world))
     = Some (JsonObject [("1", "name=Bob|value=5");
                         ("2", "name=Carol|value=7")]).
Proof. repeat split. Qed.

Lemma append_batches_call_raises_witness :
  SpatialEtl.append_batches nat (list nat) string nat
    (SpatialEtl.built nat (list nat) (fun c _ => c))
    unreachable_platform (fun _ => "") [1; 2; 3] [] 2
    {| SpatialEtl.layer := 0; SpatialEtl.calls := [] |}
  = (Raise (RuntimeError
              ("Failed during batch appending: "
               ++ exc_str (RuntimeError "connection refused"))),
     {| SpatialEtl.layer := 0; SpatialEtl.calls := [] ++ [[1; 2]] |}).
Proof.
  apply (SpatialEtlFacts.append_batches_call_raises nat (list nat) string nat
           (fun c _ => c) (fun _ => "") unreachable_platform
           1 [2; 3] [] 2
           {| SpatialEtl.layer := 0; SpatialEtl.calls := [] |}
           (RuntimeError "connection refused") 0).
  - reflexivity.
  - reflexivity.
Defined.

(** Seven rows in batches of three against [parity_platform]: three calls,
    and the three odd rows reported together at the end. *)
Example append_batches_collects_errors :
  SpatialEtl.append_batches nat (list nat) string nat
    (SpatialEtl.built nat (list nat) (fun c _ => c))
    (SpatialEtl.answering (list nat) string nat parity_platform)
    (fun e => match e with Some s => s | None => "None" end)
    [0; 1; 2; 3; 4; 5; 6] [] 3
    {| SpatialEtl.layer := 0; SpatialEtl.calls := [] |}
  = (Raise (RuntimeError
              "Failed during batch appending: 3 adds failed. First error: odd row"),
     {| SpatialEtl.layer := 3;
        SpatialEtl.calls := [[0; 1; 2]; [3; 4; 5]; [6]] |}).
Proof. reflexivity. Qed.

Lemma dry_run_writes_state_witness :
  fst (run (manager true) [alice; carol] corrupt_world) = Ok tt
  /\ remote (snd (run (manager true) [alice; carol] corrupt_world))
     = remote corrupt_world
  /\ state_file (snd (run (manager true) [alice; carol] corrupt_world))
     = Some (JsonObject
               (PyDict.pointwise record_hash1 [("1", alice); ("2", carol)])).
Proof.
  apply (dry_run_writes_state (manager true) [alice; carol] corrupt_world
           [("1", alice); ("2", carol)]); reflexivity.
Defined.

(** C9, counterexample. Two and a half thousand rows need three chunks of
    1000. Against a platform that rejects a row of the first chunk and
    raises on the second call, only two calls are made, the third chunk is
    never sent, and the error that comes back is the wrapped exception
    alone: the rejected row that was recorded is not in it. *)
Lemma append_batches_stops_at_raising_call :
  let outcome :=
    SpatialEtl.append_batches nat (list nat) string nat
      (SpatialEtl.built nat (list nat) (fun c _ => c))
      flaky_platform
      (fun e => match e with Some s => s | None => "None" end)
      (seq 0 2500) [] SpatialEtl.default_batch_size
      {| SpatialEtl.layer := 0; SpatialEtl.calls := [] |} in
  (2500 + 999) / 1000 = 3
  /\ length (SpatialEtl.calls (snd outcome)) = 2
  /\ fst outcome
     = Raise (RuntimeError
                "Failed during batch appending: connection refused").
Proof. vm_compute. repeat split. Qed.

(* ===================================================================== *)
(** ** More worked examples *)
(* ===================================================================== *)

#[local] Existing Instance ascii_methods.
#[local] Existing Instance plain_yaml_repr.
#[local] Existing Instance plain_source_env.

Lemma append_batches_negative_size_witness :
  SpatialEtl.append_batches nat (list nat) string nat
    (SpatialEtl.built nat (list nat) (fun c _ => c))
    unreachable_platform (fun _ => "") [1; 2; 3] [] (-5)
    {| SpatialEtl.layer := 0; SpatialEtl.calls := [] |}
  = (Ok tt, {| SpatialEtl.layer := 0; SpatialEtl.calls := [] |}).
Proof.
  apply (BatchFacts.append_batches_negative_size nat (list nat) string nat).
  reflexivity.
Defined.

Lemma append_batches_empty_frame_witness :
  SpatialEtl.append_batches nat (list nat) string nat
    (SpatialEtl.built nat (list nat) (fun c _ => c))
    unreachable_platform (fun _ => "") [] [] 1000
    {| SpatialEtl.layer := 0; SpatialEtl.calls := [] |}
  = (Ok tt, {| SpatialEtl.layer := 0; SpatialEtl.calls := [] |}).
Proof.
  apply (BatchFacts.append_batches_empty_frame nat (list nat) string nat).
  discriminate.
Defined.

Lemma append_batches_positive_size_witness :
  exists chunks : list (list nat),
    concat chunks = [0; 1; 2; 3; 4; 5; 6]
    /\ length chunks = 3
    /\ (forall c, In c chunks -> 1 <= length c <= 3)
    /\ Forall (fun c => length c = 3) (removelast chunks).
Proof.
  destruct (BatchFacts.append_batches_positive_size nat (list nat) string
              nat (fun c _ => c) parity_platform (fun _ => "")
              [0; 1; 2; 3; 4; 5; 6] [] 3
              {| SpatialEtl.layer := 0; SpatialEtl.calls := [] |}
              eq_refl)
    as [chunks [H1 [H2 [H3 [H4 _]]]]].
  exists chunks. auto.
Defined.

Lemma append_batches_build_fails_witness :
  SpatialEtl.append_batches nat (list nat) string nat
    (fun _ _ => Raise (KeyError "SHAPE"))
    unreachable_platform (fun _ => "") [1; 2; 3] [] 2
    {| SpatialEtl.layer := 0; SpatialEtl.calls := [] |}
  = (Raise (RuntimeError
              ("Failed during batch appending: "
               ++ "Failed to build FeatureSet from batch: "
               ++ "'SHAPE'")),
     {| SpatialEtl.layer := 0; SpatialEtl.calls := [] |}).
Proof.
  exact (BatchFacts.append_batches_build_fails nat (list nat) string nat
           (fun _ => "") (fun _ _ => Raise (KeyError "SHAPE"))
           unreachable_platform 1 [2; 3] [] 2
           {| SpatialEtl.layer := 0; SpatialEtl.calls := [] |}
           (KeyError "SHAPE") eq_refl eq_refl).
Defined.

Lemma real_run_delivers_nothing_witness :
  fst (run (manager false) [alice; carol] fresh_world) = Ok tt
  /\ remote (snd (run (manager false) [alice; carol] fresh_world))
     = remote fresh_world
  /\ In stub_warning
       (logged (snd (run (manager false) [alice; carol] fresh_world)))
  /\ state_file (snd (run (manager false) [alice; carol] fresh_world))
     = Some (JsonObject
               (PyDict.pointwise record_hash1 [("1", alice); ("2", carol)])).
Proof.
  apply (real_run_delivers_nothing (manager false) [alice; carol] fresh_world
           [("1", alice); ("2", carol)]); reflexivity.
Defined.

Lemma run_saves_keys_in_first_seen_order_witness :
  exists S1,
    state_file (snd (run (manager false) [alice; carol; bob] fresh_world))
    = Some (JsonObject S1)
    /\ PyDict.keys S1
       = first_occurrences (key_strings "id" [alice; carol; bob]).
Proof.
  apply (run_saves_keys_in_first_seen_order (manager false)
           [alice; carol; bob] fresh_world).
  reflexivity.
Defined.

Lemma validated_source_is_supported_witness :
  exists src st,
    Config.index sample_cfg "source" = Ok (Config.YMap src)
    /\ PyDict.get src "type" = Some (Config.YStr st)
    /\ (st = "csv"
        /\ Config._source sample_cfg
           = match PyDict.get src "path" with
             | None => Raise (KeyError "path")
             | Some path => Config.CsvSource_init path
             end
        \/ st = "postgres"
           /\ Config._source sample_cfg
              = match PyDict.get src "dsn" with
                | None => Raise (KeyError "dsn")
                | Some dsn =>
                    match PyDict.get src "query" with
                    | None => Raise (KeyError "query")
                    | Some query => Config.PostgresSource_init dsn query
                    end
                end
        \/ st = "gsheet"
           /\ Config._source sample_cfg
              = match PyDict.get src "spreadsheet_id" with
                | None => Raise (KeyError "spreadsheet_id")
                | Some sid =>
                    Config.GoogleSheetSource_init sid
                      (match PyDict.get src "worksheet" with
                       | Some ws => ws
                       | None => Config.YStr "Sheet1"
                       end)
                end).
Proof.
  apply (ConfigFacts.validated_source_is_supported sample_cfg).
  reflexivity.
Defined.

(** A path that is not a string passes validation and stops the
    constructor of the source. *)
Example null_path_passes_validation :
  let cfg :=
    Config.YMap
      [("project", Config.YStr "demo");
       ("source", Config.YMap [("type", Config.YStr "csv");
                               ("path", Config.YNull)]);
       ("target", Config.YMap [("type", Config.YStr "arcgis_online")])] in
  Config.validate_settings cfg = Ok tt
  /\ exists msg, Config._source cfg = Raise (Config.TypeError msg).
Proof. split; [reflexivity | eexists; reflexivity]. Qed.

Lemma sink_url_has_no_trailing_slash_witness :
  exists t u n,
    Config.index sample_cfg "target" = Ok t
    /\ Config.index t "feature_layer_url" = Ok (Config.YStr u)
    /\ u = (Config.url sample_sink ++ Config.slashes n)%string
    /\ Config.last_char (Config.url sample_sink) <> Some "/"%char
    /\ Config.rstrip_slash (Config.url sample_sink) = Config.url sample_sink
    /\ Config.sink_dry_run sample_sink = true.
Proof.
  apply (ConfigFacts.sink_url_has_no_trailing_slash sample_cfg true
           sample_sink).
  reflexivity.
Defined.

Lemma align_keeps_layer_fields_only_witness :
  length ["OBJECTID"; "fullname"; "GlobalID"; "phone"; "longitude"]
  = length sample_columns
  /\ ~ In "OBJECTID" ["fullname"; "phone"]
  /\ (forall g, Align.stripped_global_id sample_layer = Ok g -> g <> "" ->
                ~ In g ["fullname"; "phone"])
  /\ exists names,
       Align.get_layer_fields sample_layer = Ok names
       /\ (forall c, In c ["fullname"; "phone"] ->
             In c ["OBJECTID"; "fullname"; "GlobalID"; "phone"; "longitude"]
             /\ In (VStr c) names)
       /\ (forall c,
             In c ["OBJECTID"; "fullname"; "GlobalID"; "phone"; "longitude"] ->
             In (VStr c) names -> c <> "OBJECTID" ->
             Align.stripped_global_id sample_layer <> Ok c ->
             In c ["fullname"; "phone"])
       /\ (exists keep,
             ["fullname"; "phone"]
             = filter keep
                 ["OBJECTID"; "fullname"; "GlobalID"; "phone"; "longitude"]).
Proof.
  apply (AlignFacts.align_keeps_layer_fields_only sample_columns sample_layer
           (Some [("full_name", "fullname")])).
  reflexivity.
Defined.

Lemma ensure_oid_adds_once_witness :
  LayerFields.has_oid
    (LayerFields.OID_FIELD :: LayerFields.DEFAULT_LAYER_FIELDS_0) = Ok true
  /\ LayerFields.ensure_oid
       (LayerFields.OID_FIELD :: LayerFields.DEFAULT_LAYER_FIELDS_0)
     = Ok (LayerFields.OID_FIELD :: LayerFields.DEFAULT_LAYER_FIELDS_0)
  /\ (LayerFields.has_oid LayerFields.DEFAULT_LAYER_FIELDS_0 = Ok true
      /\ LayerFields.OID_FIELD :: LayerFields.DEFAULT_LAYER_FIELDS_0
         = LayerFields.DEFAULT_LAYER_FIELDS_0
      \/ LayerFields.has_oid LayerFields.DEFAULT_LAYER_FIELDS_0 = Ok false
         /\ LayerFields.OID_FIELD :: LayerFields.DEFAULT_LAYER_FIELDS_0
            = LayerFields.OID_FIELD :: LayerFields.DEFAULT_LAYER_FIELDS_0).
Proof.
  apply (LayerFieldsFacts.ensure_oid_adds_once
           LayerFields.DEFAULT_LAYER_FIELDS_0
           (LayerFields.OID_FIELD :: LayerFields.DEFAULT_LAYER_FIELDS_0));
    reflexivity.
Defined.

Lemma prepare_layer_fields_in_place_witness :
  LayerFields.Object 0
  = LayerFields.fields_or_default sample_store (Some (LayerFields.Object 0))
  /\ LayerFields.has_objectid
       (LayerFields.deref
          (snd (LayerFields._prepare_layer_fields
                  (Some (LayerFields.Object 0)) sample_store))
          (LayerFields.Object 0)) = Ok true.
Proof.
  assert (Hlow : py_lower "OBJECTID" = "objectid") by reflexivity.
  assert (Hrun : LayerFields._prepare_layer_fields
                   (Some (LayerFields.Object 0)) sample_store
                 = (Ok (LayerFields.Object 0),
                    snd (LayerFields._prepare_layer_fields
                           (Some (LayerFields.Object 0)) sample_store)))
    by reflexivity.
  destruct (LayerFieldsFacts.prepare_layer_fields_in_place
              (Some (LayerFields.Object 0)) sample_store _ _ Hlow Hrun)
    as [H1 [H2 _]].
  auto.
Defined.

Lemma prepare_without_fields_grows_default_witness :
  fst (LayerFields._prepare_layer_fields None sample_store)
  = Ok LayerFields.Default
  /\ LayerFields.DEFAULT_LAYER_FIELDS
       (snd (LayerFields._prepare_layer_fields None sample_store))
     = LayerFields.OID_FIELD :: LayerFields.DEFAULT_LAYER_FIELDS_0
  /\ LayerFields.objects
       (snd (LayerFields._prepare_layer_fields None sample_store))
     = LayerFields.objects sample_store.
Proof.
  apply (LayerFieldsFacts.prepare_without_fields_grows_default None
           sample_store); [exact I | reflexivity].
Defined.

Lemma clean_coordinates_within_bounds_witness :
  exists out,
    Coordinates.clean_coordinates _ fst snd sample_places = Ok out
    /\ length out = 2
    /\ Coordinates.clean_coordinates _ fst snd out = Ok out.
Proof.
  exists [nth 0 sample_places (Coordinates.NaN, Coordinates.NaN);
          nth 3 sample_places (Coordinates.NaN, Coordinates.NaN)].
  split; [reflexivity|]. split; [reflexivity|].
  apply (CoordinatesFacts.clean_coordinates_within_bounds _ fst snd
           sample_places).
  reflexivity.
Defined.

Lemma dict_zip_lookup_witness :
  PyDict.keys (Sources.dict_zip ["id"; "name"] [VInt 1; VStr "Alice"])
  = ["id"; "name"]
  /\ forall i, i < 2 ->
       PyDict.get (Sources.dict_zip ["id"; "name"] [VInt 1; VStr "Alice"])
         (nth i ["id"; "name"] "")
       = Some (nth i [VInt 1; VStr "Alice"] VNone).
Proof.
  apply (SourcesFacts.dict_zip_lookup ["id"; "name"] [VInt 1; VStr "Alice"]
           VNone).
  - repeat constructor; simpl; intuition discriminate.
  - reflexivity.
Defined.

Lemma dict_zip_missing_column_witness :
  PyDict.contains
    (Sources.dict_zip ["uid"; "name"] [VInt 1; VStr "Alice"]) "id" = false.
Proof.
  apply (SourcesFacts.dict_zip_missing_column ["uid"; "name"]
           [VInt 1; VStr "Alice"] "id").
  simpl. intuition discriminate.
Defined.

Lemma run_spatial_etl_counts_after_upload_witness :
  SpatialRun.run_spatial_etl (list nat) nat (list nat) string nat
    sample_frame (fun _ r => r) (fun _ => sample_layer)
    (SpatialEtl.built nat (list nat) (fun c _ => c))
    (SpatialEtl.answering (list nat) string nat parity_platform)
    (fun _ => "") (fun l => Ok (Z.of_nat l))
    [0; 2; 4] None 4326 2
    {| SpatialEtl.layer := 0; SpatialEtl.calls := [] |}
  = (Ok 2%Z, {| SpatialEtl.layer := 2; SpatialEtl.calls := [[0; 2]; [4]] |}).
Proof.
  exact (SpatialRunFacts.run_spatial_etl_counts_after_upload
           (list nat) nat (list nat) string nat
           sample_frame (fun _ r => r) (fun _ => sample_layer)
           (fun _ => "") (fun l => Ok (Z.of_nat l))
           (fun c _ => c) parity_platform
           [0; 2; 4] None 4326 2
           {| SpatialEtl.layer := 0; SpatialEtl.calls := [] |}
           {| SpatialRun.columns := sample_columns;
              SpatialRun.rows := [0; 2; 4] |}
           sample_columns ["phone"]
           eq_refl eq_refl eq_refl).
Defined.
